(** * Calibration loader and frame transforms of [thirdparty/calib.py]

    A shallow embedding of the KITTI calibration module: the text loader
    [read_calib_file], the point primitive [homogeneous_transform], the
    window filters [filter_disps] / [filter_depths] and the [Calib] class
    with its [get_*] accessors and point wrappers.

    Conventions of the embedding.
    - Python exceptions are values of [exn]; a call that may raise returns
      [result A].
    - Arrays hold [float64] numbers, as the loader builds them, and these
      are exact rationals [Q] (no rounding, no NaN or infinity); a parsed
      literal is stored reduced ([Qred]).  Where numpy would give [inf] or
      [nan] (a division by a zero last coordinate) [Q] has no value to
      give: what is stated about the entries of a quotient is stated for
      a divisor that is not zero.
    - A [str] is a [string] of ASCII characters; the text of a file is the
      text Python hands to [readlines], after newline translation.
    - A 2-D [ndarray] is a [matrix]: its column count and its list of rows
      (the row count is the length of that list), a 1-D one a [list Q].
    - [np.linalg.inv] lives outside the repository and is a parameter of
      the [Calib] section.
    - A path that [open] or [os.listdir] refuses raises one of the
      subclasses of [OSError] ([FileNotFoundError], [IsADirectoryError],
      [NotADirectoryError], [PermissionError]); the embedding keeps the
      class [OSError] and not which of them it is. *)

From Stdlib Require Import Ascii String QArith.
From stdpp Require Import gmap strings list fin_maps pretty sorting.

Open Scope string_scope.
Open Scope list_scope.

(** ** Exceptions and results *)

Inductive exn : Type :=
  | OSError
  | ValueError
  | KeyError (key : string)
  | AttributeError (name : string)
  | IndexError
  | TypeError
  | AssertionError
  | LinAlgError.

Inductive result (A : Type) : Type :=
  | Ok (a : A)
  | Raise (e : exn).
Arguments Ok {A} a.
Arguments Raise {A} e.

Global Instance result_ret : MRet result := fun A a => Ok a.
Global Instance result_bind : MBind result := fun A B k r =>
  match r with
  | Ok a => k a
  | Raise e => Raise e
  end.

(** ** String primitives of Python used by the loader *)

Module Str.

Definition newline : ascii := ascii_of_nat 10.

(** [c in " \t\n\r\x0b\x0c\x1c\x1d\x1e\x1f"]: what [str.strip()] removes. *)
Definition isspace (c : ascii) : bool :=
  let n := nat_of_ascii c in
  ((9 <=? n)%nat && (n <=? 13)%nat) || ((28 <=? n)%nat && (n <=? 32)%nat).

Definition is_newline (c : ascii) : bool := Ascii.eqb c newline.

Fixpoint lstrip (p : ascii -> bool) (s : string) : string :=
  match s with
  | EmptyString => EmptyString
  | String c r => if p c then lstrip p r else s
  end.

Fixpoint rstrip (p : ascii -> bool) (s : string) : string :=
  match s with
  | EmptyString => EmptyString
  | String c r =>
      match rstrip p r with
      | EmptyString => if p c then EmptyString else String c EmptyString
      | r' => String c r'
      end
  end.

(** [s.strip(chars)] *)
Definition strip (p : ascii -> bool) (s : string) : string :=
  rstrip p (lstrip p s).

(** [f.readlines()]: the lines of a text, each with its terminator. *)
Fixpoint readlines (s : string) : list string :=
  match s with
  | EmptyString => []
  | String c r =>
      if is_newline c then String c EmptyString :: readlines r
      else match readlines r with
           | [] => [String c EmptyString]
           | l :: ls => String c l :: ls
           end
  end.

(** [s.split(sep)] for a one-character separator. *)
Fixpoint split (sep : ascii) (s : string) : list string :=
  match s with
  | EmptyString => [EmptyString]
  | String c r =>
      if Ascii.eqb c sep then EmptyString :: split sep r
      else match split sep r with
           | [] => [String c EmptyString]
           | t :: ts => String c t :: ts
           end
  end.

(** [s.split(sep, 1)]: [None] when [sep] does not occur (one piece),
    otherwise the text before and after the first [sep]. *)
Fixpoint split1 (sep : ascii) (s : string) : option (string * string) :=
  match s with
  | EmptyString => None
  | String c r =>
      if Ascii.eqb c sep then Some (EmptyString, r)
      else match split1 sep r with
           | None => None
           | Some (k, v) => Some (String c k, v)
           end
  end.

Fixpoint forallb (p : ascii -> bool) (s : string) : bool :=
  match s with
  | EmptyString => true
  | String c r => p c && forallb p r
  end.

Fixpoint contains (c : ascii) (s : string) : bool :=
  match s with
  | EmptyString => false
  | String d r => Ascii.eqb d c || contains c r
  end.

Definition is_empty (s : string) : bool :=
  match s with
  | EmptyString => true
  | _ => false
  end.

End Str.

(** ** [float(token)] on the loader's alphabet

    [read_calib_file] calls [float] only on pieces of a value that passed
    the [float_chars] test, so a piece holds no blank, underscore, letter
    other than [e], and cannot spell [inf] or [nan].  On such text Python
    accepts exactly
      [sign] (digits ["." [digits]] | "." digits) ["e" [sign] digits]
    and raises [ValueError] on anything else. *)

Module PyFloat.

Definition is_digit (c : ascii) : bool :=
  let n := nat_of_ascii c in (48 <=? n)%nat && (n <=? 57)%nat.

Definition digit_val (c : ascii) : Z := Z.of_nat (nat_of_ascii c) - 48.

(** Longest prefix of decimal digits, and what follows it. *)
Fixpoint span_digits (s : string) : string * string :=
  match s with
  | EmptyString => (EmptyString, EmptyString)
  | String c r =>
      if is_digit c then
        let '(ds, rest) := span_digits r in (String c ds, rest)
      else (EmptyString, s)
  end.

Fixpoint digits_value (acc : Z) (ds : string) : Z :=
  match ds with
  | EmptyString => acc
  | String c r => digits_value (10 * acc + digit_val c)%Z r
  end.

(** An optional sign: [true] for a leading minus. *)
Definition take_sign (s : string) : bool * string :=
  match s with
  | String "+" r => (false, r)
  | String "-" r => (true, r)
  | _ => (false, s)
  end.

(** The exponent part: nothing, or [e], an optional sign and digits up to
    the end of the text. *)
Definition parse_exponent (s : string) : option Z :=
  match s with
  | EmptyString => Some 0%Z
  | String "e" r =>
      let '(neg, r1) := take_sign r in
      let '(ds, r2) := span_digits r1 in
      if Str.is_empty ds then None
      else if Str.is_empty r2 then
        Some (if neg then - digits_value 0 ds else digits_value 0 ds)%Z
      else None
  | _ => None
  end.

(** [mant * 10 ^ e10], reduced. *)
Definition scale10 (mant e10 : Z) : Q :=
  Qred (if (0 <=? e10)%Z then inject_Z (mant * 10 ^ e10)
        else Qmake mant (Z.to_pos (10 ^ (- e10)))).

Definition float (s : string) : option Q :=
  let '(neg, s1) := take_sign s in
  let '(ip, s2) := span_digits s1 in
  let '(fp, s3) :=
    match s2 with
    | String "." r => span_digits r
    | _ => (EmptyString, s2)
    end in
  if Str.is_empty ip && Str.is_empty fp then None
  else
    match parse_exponent s3 with
    | None => None
    | Some e =>
        let mant := digits_value (digits_value 0 ip) fp in
        let mant := if neg then (- mant)%Z else mant in
        Some (scale10 mant (e - Z.of_nat (String.length fp)))
    end.

End PyFloat.

(** ** The loader *)

(** A stored value: the float vector that [np.array] built, or the text. *)
Inductive calib_value : Type :=
  | Numeric (v : list Q)
  | Text (s : string).

Abbreviation CalibData := (gmap string calib_value).

(** The files that can be opened: path to text.  Any other path makes
    [open] raise an [OSError]. *)
Abbreviation filesystem := (gmap string string).

(** [set("0123456789.e+- ")] *)
Definition float_chars : string := "0123456789.e+- ".

Definition in_float_chars (c : ascii) : bool := Str.contains c float_chars.

(** [list(map(float, pieces))]: the first piece [float] rejects raises. *)
Fixpoint map_float (pieces : list string) : option (list Q) :=
  match pieces with
  | [] => Some []
  | p :: ps =>
      match PyFloat.float p with
      | None => None
      | Some q =>
          match map_float ps with
          | None => None
          | Some qs => Some (q :: qs)
          end
      end
  end.

(** What ends up in [data[key]] for a trimmed [value]. *)
Definition store_value (value : string) : calib_value :=
  if Str.forallb in_float_chars value then
    match map_float (Str.split " " value) with
    | Some v => Numeric v
    | None => Text value
    end
  else Text value.

(** One turn of the loop over [f.readlines()]. *)
Definition read_line (data : CalibData) (line : string) : result CalibData :=
  let line := Str.strip Str.is_newline line in
  if (String.length line =? 0)%nat then Ok data
  else
    match Str.split1 ":" line with
    | None => Raise ValueError
    | Some (key, value) =>
        let value := Str.strip Str.isspace value in
        let data := <[key := Text value]> data in
        Ok (<[key := store_value value]> data)
    end.

Fixpoint read_lines (data : CalibData) (lines : list string) : result CalibData :=
  match lines with
  | [] => Ok data
  | l :: ls => data' ← read_line data l; read_lines data' ls
  end.

Definition read_calib_text (text : string) : result CalibData :=
  read_lines ∅ (Str.readlines text).

Definition read_calib_file (fs : filesystem) (path : string) : result CalibData :=
  match fs !! path with
  | None => Raise OSError
  | Some text => read_calib_text text
  end.

(** ** Arrays *)

Record matrix : Type := Mat { ncols : nat; mrows : list (list Q) }.

Definition nrows (m : matrix) : nat := length (mrows m).

(** Every row has [ncols] entries: the invariant of a 2-D [ndarray]. *)
Definition wf (m : matrix) : Prop :=
  Forall (fun r => length r = ncols m) (mrows m).

Module Np.

(** [np.ones((n, k))] *)
Definition ones (n k : nat) : matrix := Mat k (replicate n (replicate k 1%Q)).

(** [np.eye(n)] *)
Definition eye (n : nat) : matrix :=
  Mat n (map (fun i => map (fun j => if (i =? j)%nat then 1%Q else 0%Q) (seq 0 n))
             (seq 0 n)).

(** [m[:, j]] as a list. *)
Definition col (j : nat) (m : matrix) : list Q :=
  map (fun r => nth j r 0%Q) (mrows m).

(** [m.T] *)
Definition transpose (m : matrix) : matrix :=
  Mat (nrows m) (map (fun j => col j m) (seq 0 (ncols m))).

(** [np.hstack([a, b])]: the row counts must agree. *)
Definition hstack (a b : matrix) : result matrix :=
  if (nrows a =? nrows b)%nat
  then Ok (Mat (ncols a + ncols b) (zip_with app (mrows a) (mrows b)))
  else Raise ValueError.

(** [np.vstack([a, b])]: the column counts must agree. *)
Definition vstack (a b : matrix) : result matrix :=
  if (ncols a =? ncols b)%nat
  then Ok (Mat (ncols a) (mrows a ++ mrows b))
  else Raise ValueError.

Definition vdot (u v : list Q) : Q :=
  foldr Qplus 0%Q (zip_with Qmult u v).

(** [np.dot(a, b)] of 2-D arrays: inner dimensions must agree. *)
Definition dot (a b : matrix) : result matrix :=
  if (ncols a =? nrows b)%nat
  then Ok (Mat (ncols b)
             (map (fun r => map (fun j => vdot r (col j b)) (seq 0 (ncols b)))
                  (mrows a)))
  else Raise ValueError.

(** [m[:, :-1]] *)
Definition init_cols (m : matrix) : matrix :=
  Mat (ncols m - 1) (map (fun r => take (length r - 1) r) (mrows m)).

(** [m[:, [-1]]]: index -1 is out of bounds on an axis of size 0. *)
Definition last_col (m : matrix) : result matrix :=
  if (ncols m =? 0)%nat then Raise IndexError
  else Ok (Mat 1 (map (fun r => [default 0%Q (last r)]) (mrows m))).

(** [a / w] for [a] of shape (n, k) and [w] of shape (n, 1): each row of
    [a] is divided by the entry of the same row of [w].  For an entry of
    [w] that is zero numpy fills the row with [inf] and [nan], which [Q]
    does not have; the rows of the quotient mean something for a divisor
    that is not zero only. *)
Definition div_rows (a w : matrix) : matrix :=
  Mat (ncols a)
      (zip_with (fun r wr => map (fun x => (x / hd 0%Q wr)%Q) r) (mrows a) (mrows w)).

(** [v.reshape(r, c)] of a 1-D array: its size must be [r * c]. *)
Fixpoint chunks (r c : nat) (v : list Q) : list (list Q) :=
  match r with
  | O => []
  | S r' => take c v :: chunks r' c (drop c v)
  end.

Definition reshape (r c : nat) (v : list Q) : result matrix :=
  if (length v =? r * c)%nat then Ok (Mat c (chunks r c v)) else Raise ValueError.

(** [m[mask]] for a boolean mask over the rows. *)
Fixpoint select (rows : list (list Q)) (mask : list bool) : list (list Q) :=
  match rows, mask with
  | r :: rs, b :: bs => if b then r :: select rs bs else select rs bs
  | _, _ => []
  end.

(** [m[:r, :c] = b] for [b] of shape (r, c). *)
Definition assign_block (r c : nat) (m b : matrix) : matrix :=
  Mat (ncols m)
      (zip_with (fun row brow => brow ++ drop c row) (take r (mrows m)) (mrows b)
       ++ drop r (mrows m)).

(** [m[:r, j] = v] for a 1-D [v]: its length is [r], or 1 and it is
    repeated; any other length cannot be broadcast. *)
Definition assign_col (r j : nat) (m : matrix) (v : list Q) : result matrix :=
  if (length v =? r)%nat then
    Ok (Mat (ncols m)
          (zip_with (fun row x => <[j := x]> row) (take r (mrows m)) v
           ++ drop r (mrows m)))
  else if (length v =? 1)%nat then
    Ok (Mat (ncols m)
          (map (fun row => <[j := hd 0%Q v]> row) (take r (mrows m))
           ++ drop r (mrows m)))
  else Raise ValueError.

End Np.

(** ** The point primitive *)

Definition homogeneous_transform (points transform : matrix) (keep_last : bool)
  : result matrix :=
  let n_points := nrows points in
  let D := ncols points in
  let M := nrows transform in
  points ←
    (if (Z.of_nat D =? Z.of_nat M - 1)%Z then
       Np.hstack points (Np.ones n_points 1)
     else if negb (D =? M)%nat then Raise ValueError
     else Ok points);
  new_points ← Np.dot points transform;
  let head := Np.init_cols new_points in
  last ← Np.last_col new_points;
  if negb keep_last then Ok (Np.div_rows head last)
  else Np.hstack (Np.div_rows head last) last.

(** ** Window filters *)

Definition image_shape : Z * Z := (375, 1242)%Z.

Definition default_max_disp : Q := 255.

(** What a filter returns: the kept rows, with the mask when asked. *)
Inductive filtered : Type :=
  | Rows (xyd : matrix)
  | RowsMask (xyd : matrix) (mask : list bool).

(** [x, y, d = xyd.T] *)
Definition unpack3 (m : matrix) : result (list Q * list Q * list Q) :=
  match mrows m with
  | [x; y; d] => Ok (x, y, d)
  | _ => Raise ValueError
  end.

Definition zip3 {A B C D : Type} (f : A -> B -> C -> D)
    (xs : list A) (ys : list B) (zs : list C) : list D :=
  zip_with (fun '(x, y) z => f x y z) (zip xs ys) zs.

Definition filter_disps (xyd : matrix) (shape : Z * Z) (max_disp : Q)
    (return_mask : bool) : result filtered :=
  '(x, y, d) ← unpack3 (Np.transpose xyd);
  let mask :=
    zip3 (fun x y d =>
            Qle_bool 0 x && Qle_bool x (inject_Z (snd shape - 1)) &&
            Qle_bool 0 y && Qle_bool y (inject_Z (fst shape - 1)) &&
            Qle_bool 0 d && Qle_bool d max_disp) x y d in
  let xyd := Mat (ncols xyd) (Np.select (mrows xyd) mask) in
  Ok (if return_mask then RowsMask xyd mask else Rows xyd).

Definition filter_depths (xyd : matrix) (shape : Z * Z) : result matrix :=
  '(x, y, d) ← unpack3 (Np.transpose xyd);
  let mask :=
    zip3 (fun x y (_ : Q) =>
            Qle_bool 0 x && Qle_bool x (inject_Z (snd shape - 1)) &&
            Qle_bool 0 y && Qle_bool y (inject_Z (fst shape - 1))) x y d in
  Ok (Mat (ncols xyd) (Np.select (mrows xyd) mask)).

(** ** The [Calib] class *)

(** An instance: the attributes [__init__] assigns, and [color], which is
    an attribute only once somebody has assigned it ([None]: absent). *)
Record Calib : Type := MkCalib {
  calib_path : string;
  data : CalibData;
  attr_color : option bool
}.

(** [self.data[key]] *)
Definition field (self : Calib) (key : string) : result calib_value :=
  match data self !! key with
  | Some v => Ok v
  | None => Raise (KeyError key)
  end.

(** [value.reshape(r, c)]: a [str] has no such attribute. *)
Definition reshape_value (v : calib_value) (r c : nat) : result matrix :=
  match v with
  | Numeric a => Np.reshape r c a
  | Text _ => Raise (AttributeError "reshape")
  end.

(** ['P%d' % cam] *)
Definition proj_key (cam : Z) : string := "P" +:+ pretty cam.

Section Calib.

(** [np.linalg.inv]; it raises [LinAlgError] on a singular matrix. *)
Variable linalg_inv : matrix -> result matrix.

(** [Calib(calib_path, color)]: the [color] argument is not stored. *)
Definition Calib_init (fs : filesystem) (calib_path : string) (color : bool)
  : result Calib :=
  d ← read_calib_file fs calib_path;
  Ok (MkCalib calib_path d None).

(** The assignment to [RT_imu2velo[:3, 3]] of a field stored as text is
    left to numpy, which converts the texts it can read as one number
    ([2E0], [inf]) and raises [ValueError] on the others.  Only the second
    case is embedded: what is stated of [get_imu2velo], and of what is
    built on it, is stated for a [Tr_imu_to_velo] that is stored as a
    vector. *)
Definition get_imu2velo (self : Calib) : result matrix :=
  let RT_imu2velo := Np.eye 4 in
  v ← field self "R0_rect";
  R ← reshape_value v 3 3;
  let RT_imu2velo := Np.assign_block 3 3 RT_imu2velo R in
  t ← field self "Tr_imu_to_velo";
  RT_imu2velo ←
    match t with
    | Numeric a => Np.assign_col 3 3 RT_imu2velo a
    | Text _ => Raise ValueError
    end;
  Ok (Np.transpose RT_imu2velo).

Definition get_velo2rect (self : Calib) : result matrix :=
  let RT_velo2cam := Np.eye 4 in
  v ← field self "Tr_velo_to_cam";
  Tr ← reshape_value v 3 4;
  let RT_velo2cam := Np.assign_block 4 3 RT_velo2cam (Np.transpose Tr) in
  let R_rect00 := Np.eye 4 in
  v ← field self "R0_rect";
  R ← reshape_value v 3 3;
  let R_rect00 := Np.assign_block 3 3 R_rect00 R in
  RT_velo2rect ← Np.dot R_rect00 RT_velo2cam;
  Ok (Np.transpose RT_velo2rect).

Definition get_velo2cam (self : Calib) : result matrix :=
  v ← field self "Tr_velo_to_cam";
  reshape_value v 3 4.

Definition get_cam2road (self : Calib) : result matrix :=
  v ← field self "Tr_cam_to_road";
  reshape_value v 3 4.

Definition get_velo2road (self : Calib) : result matrix :=
  let RT_velo2cam := Np.eye 4 in
  v ← field self "Tr_velo_to_cam";
  Tr ← reshape_value v 3 4;
  let RT_velo2cam := Np.assign_block 4 3 RT_velo2cam (Np.transpose Tr) in
  let RT_cam2road := Np.eye 4 in
  v ← field self "Tr_cam_to_road";
  Tr ← reshape_value v 3 4;
  let RT_cam2road := Np.assign_block 4 3 RT_cam2road (Np.transpose Tr) in
  RT_velo2road ← Np.dot RT_cam2road RT_velo2cam;
  Ok (Np.transpose RT_velo2road).

(** [P0, P1, P2 = P] *)
Definition rows3 (P : matrix) : result (list Q * list Q * list Q) :=
  match mrows P with
  | [a; b; c] => Ok (a, b, c)
  | _ => Raise ValueError
  end.

(** [np.array([P0, P1, P0 - Q0, P2]).T] *)
Definition disp_stack (P0 P1 P2 Q0 : list Q) : matrix :=
  Np.transpose (Mat 4 [P0; P1; zip_with Qminus P0 Q0; P2]).

Definition get_rect2disp (self : Calib) : result matrix :=
  color ←
    match attr_color self with
    | Some b => Ok b
    | None => Raise (AttributeError "color")
    end;
  let '(cam0, cam1) := if negb color then (0, 1)%Z else (2, 3)%Z in
  v ← field self (proj_key cam0);
  P_rect0 ← reshape_value v 3 4;
  v ← field self (proj_key cam1);
  P_rect1 ← reshape_value v 3 4;
  '(P0, P1, P2) ← rows3 P_rect0;
  '(Q0, Q1, Q2) ← rows3 P_rect1;
  Ok (disp_stack P0 P1 P2 Q0).

Definition get_imu2rect (self : Calib) : result matrix :=
  a ← get_imu2velo self;
  b ← get_velo2rect self;
  Np.dot a b.

Definition get_imu2disp (self : Calib) : result matrix :=
  a ← get_imu2rect self;
  b ← get_rect2disp self;
  Np.dot a b.

Definition get_velo2disp (self : Calib) : result matrix :=
  a ← get_velo2rect self;
  b ← get_rect2disp self;
  Np.dot a b.

Definition get_disp2rect (self : Calib) : result matrix :=
  T ← get_rect2disp self;
  linalg_inv T.

Definition get_disp2imu (self : Calib) : result matrix :=
  T ← get_imu2disp self;
  linalg_inv T.

Definition get_proj (self : Calib) (cam_idx : Z) : result matrix :=
  if ((cam_idx =? 0) || (cam_idx =? 1) || (cam_idx =? 2) || (cam_idx =? 3))%Z then
    v ← field self (proj_key cam_idx);
    P ← reshape_value v 3 4;
    Ok (Np.transpose P)
  else Raise AssertionError.

Definition get_velo2depth (self : Calib) (cam_idx : Z) : result matrix :=
  a ← get_velo2rect self;
  b ← get_proj self cam_idx;
  Np.dot a b.

(** The attributes of the class named [get_...], as attribute lookup on
    an instance finds them. *)
Inductive accessor : Type :=
  | Nullary (f : Calib -> result matrix)
  | Indexed (f : Calib -> Z -> result matrix).

Definition accessors : list (string * accessor) :=
  [ ("get_imu2velo", Nullary get_imu2velo);
    ("get_velo2rect", Nullary get_velo2rect);
    ("get_velo2cam", Nullary get_velo2cam);
    ("get_cam2road", Nullary get_cam2road);
    ("get_velo2road", Nullary get_velo2road);
    ("get_rect2disp", Nullary get_rect2disp);
    ("get_imu2rect", Nullary get_imu2rect);
    ("get_imu2disp", Nullary get_imu2disp);
    ("get_velo2disp", Nullary get_velo2disp);
    ("get_disp2rect", Nullary get_disp2rect);
    ("get_disp2imu", Nullary get_disp2imu);
    ("get_proj", Indexed get_proj);
    ("get_velo2depth", Indexed get_velo2depth) ].

Fixpoint assoc (name : string) (tbl : list (string * accessor)) : option accessor :=
  match tbl with
  | [] => None
  | (k, a) :: rest => if String.eqb k name then Some a else assoc name rest
  end.

(** [self.<name>] *)
Definition getattr (name : string) : result accessor :=
  match assoc name accessors with
  | Some a => Ok a
  | None => Raise (AttributeError name)
  end.

(** [f()] on a looked-up accessor: one that wants [cam_idx] is short of an
    argument. *)
Definition call0 (a : accessor) (self : Calib) : result matrix :=
  match a with
  | Nullary f => f self
  | Indexed _ => Raise TypeError
  end.

Definition rect2disp (self : Calib) (points : matrix) : result matrix :=
  T ← get_rect2disp self;
  homogeneous_transform points T false.

Definition disp2rect (self : Calib) (xyd : matrix) : result matrix :=
  T ← get_disp2rect self;
  homogeneous_transform xyd T false.

Definition velo2rect (self : Calib) (points : matrix) : result matrix :=
  T ← get_velo2rect self;
  homogeneous_transform points T false.

Definition velo2disp (self : Calib) (points : matrix) : result matrix :=
  T ← get_velo2disp self;
  homogeneous_transform points T false.

Definition imu2rect (self : Calib) (points : matrix) : result matrix :=
  T ← get_imu2rect self;
  homogeneous_transform points T false.

(** [homogeneous_transform(points, self.get_rect2imu())]: the class has
    no [get_rect2imu]; the lookup is made before anything is computed. *)
Definition rect2imu (self : Calib) (points : matrix) : result matrix :=
  g ← getattr "get_rect2imu";
  T ← call0 g self;
  homogeneous_transform points T false.

Definition Calib_filter_disps (self : Calib) (xyd : matrix) (max_disp : Q)
    (return_mask : bool) : result filtered :=
  filter_disps xyd image_shape max_disp return_mask.

Definition velo2depth (self : Calib) (points : matrix) (cam_idx : Z)
  : result matrix :=
  T ← get_velo2depth self cam_idx;
  homogeneous_transform points T true.

Definition velo2img (self : Calib) (points : matrix) (cam_idx : Z)
  : result matrix :=
  T ← get_velo2depth self cam_idx;
  homogeneous_transform points T false.

(** [np.vstack([points, np.ones(points.shape[1])])] *)
Definition with_ones_row (points : matrix) : result matrix :=
  Np.vstack points (Mat (ncols points) [replicate (ncols points) 1%Q]).

Definition velo2cams (self : Calib) (points : matrix) : result matrix :=
  RT_ ← get_velo2cam self;
  let points := Np.transpose points in
  pnt ← with_ones_row points;
  Np.dot RT_ pnt.

(** The [print] of the shape is not part of the value. *)
Definition cams2road (self : Calib) (points : matrix) : result matrix :=
  RT_ ← get_cam2road self;
  pnt ← with_ones_row points;
  Np.dot RT_ pnt.

Definition velo2road (self : Calib) (points : matrix) : result matrix :=
  cams ← velo2cams self points;
  cams2road self cams.

Definition Calib_filter_depths (self : Calib) (xyd : matrix) (shape : Z * Z)
  : result matrix :=
  filter_depths xyd shape.

End Calib.

(** ** Frame indices of a directory *)

Section Inds.

(** [os.path.splitext] and [int] belong to Python: the first gives the
    stem and the extension of a name, the second the integer a text
    spells, or raises [ValueError] ([None]). *)
Variable splitext : string -> string * string.
Variable py_int : string -> option Z.

(** [[int(splitext(name)[0]) for name in names if splitext(name)[1] == ext]]:
    the test comes first, and the first stem [int] rejects raises. *)
Fixpoint collect_inds (ext : string) (names : list string) : result (list Z) :=
  match names with
  | [] => Ok []
  | name :: rest =>
      if String.eqb (snd (splitext name)) ext then
        match py_int (fst (splitext name)) with
        | None => Raise ValueError
        | Some i => inds ← collect_inds ext rest; Ok (i :: inds)
        end
      else collect_inds ext rest
  end.

(** [get_inds(path, ext)]; [dirs] gives what [os.listdir] returns for the
    directories that can be listed; on any other path it raises an
    [OSError]. *)
Definition get_inds (dirs : gmap string (list string)) (path ext : string)
  : result (list Z) :=
  match dirs !! path with
  | None => Raise OSError
  | Some names =>
      inds ← collect_inds ext names;
      Ok (merge_sort Z.le inds)
  end.

End Inds.

(** ** Predicates used to state the properties *)

Definition nl : string := String Str.newline EmptyString.

(** Two blanks in a row somewhere in the text. *)
Fixpoint has_double_space (s : string) : bool :=
  match s with
  | EmptyString => false
  | String a r =>
      match r with
      | EmptyString => false
      | String b _ => (Ascii.eqb a " " && Ascii.eqb b " ") || has_double_space r
      end
  end.

(** A line as the loop sees it, once its line ends are removed. *)
Definition chomp (line : string) : string := Str.strip Str.is_newline line.

(** [points] with a column of ones appended on the right. *)
Definition promote (points : matrix) : matrix :=
  Mat (ncols points + 1) (map (fun r => r ++ [1%Q]) (mrows points)).

(** The last entry of a row of the product: its homogeneous coordinate. *)
Definition weight (r : list Q) : Q := default 0%Q (last r).

(** A row of the product, normalized: every entry but the last divided by
    the last one, which is kept as it is when [keep_last] holds. *)
Definition normalize_row (keep_last : bool) (r : list Q) : list Q :=
  map (fun x => (x / weight r)%Q) (take (length r - 1) r)
  ++ (if keep_last then [weight r] else []).

(** The reading under which, with [keep_last], the last column of the
    result is the last column of the product divided by itself. *)
Definition keeps_normalized_last (points transform : matrix) : Prop :=
  forall prod R : matrix,
    Np.dot points transform = Ok prod ->
    homogeneous_transform points transform true = Ok R ->
    Forall2 (fun r p => (weight r == weight p / weight p)%Q) (mrows R) (mrows prod).

(** A row [(x, y, d)] inside the window of an image of [h] rows and [w]
    columns, with disparity at most [max_disp]. *)
Definition in_window (h w : Z) (max_disp : Q) (r : list Q) : Prop :=
  match r with
  | [x; y; d] =>
      (0 <= x)%Q /\ (x <= inject_Z (w - 1))%Q /\
      (0 <= y)%Q /\ (y <= inject_Z (h - 1))%Q /\
      (0 <= d)%Q /\ (d <= max_disp)%Q
  | _ => False
  end.

Definition Qle_decision (x y : Q) : Decision (x <= y)%Q :=
  match Qlt_le_dec y x with
  | left H => right (Qlt_not_le _ _ H)
  | right H => left H
  end.

#[global] Instance in_window_dec (h w : Z) (max_disp : Q) (r : list Q)
  : Decision (in_window h w max_disp r) :=
  match r as r0 return Decision (in_window h w max_disp r0) with
  | [x; y; d] =>
      @and_dec _ (Qle_decision _ _) _
        (@and_dec _ (Qle_decision _ _) _
           (@and_dec _ (Qle_decision _ _) _
              (@and_dec _ (Qle_decision _ _) _
                 (@and_dec _ (Qle_decision _ _) _ (Qle_decision _ _)))))
  | _ => right (fun H => H)
  end.

(** A call that returns. *)
Definition is_ok {A : Type} (r : result A) : Prop := exists a, r = Ok a.

(** A line the loop accepts: blank, or with a colon. *)
Definition line_ok (line : string) : Prop :=
  chomp line = EmptyString \/ Str.contains ":" (chomp line) = true.

(** The key a line assigns, if it assigns one. *)
Definition line_key (line : string) : option string :=
  match Str.split1 ":" (chomp line) with
  | Some (k, _) => Some k
  | None => None
  end.

(** The value a line assigns, as stored. *)
Definition line_value (line : string) : option calib_value :=
  match Str.split1 ":" (chomp line) with
  | Some (_, raw) => Some (store_value (Str.strip Str.isspace raw))
  | None => None
  end.

Definition starts_with (p : ascii -> bool) (s : string) : bool :=
  match s with
  | EmptyString => false
  | String c _ => p c
  end.

Fixpoint ends_with (p : ascii -> bool) (s : string) : bool :=
  match s with
  | EmptyString => false
  | String c EmptyString => p c
  | String _ r => ends_with p r
  end.

(** A stored value: a text without blanks at its ends, or a vector that
    is not empty. *)
Definition well_stored (v : calib_value) : Prop :=
  match v with
  | Text t =>
      starts_with Str.isspace t = false /\ ends_with Str.isspace t = false
  | Numeric xs => xs <> []
  end.

(** The field [key] is not stored as a text: it is absent, or a vector. *)
Definition not_text (self : Calib) (key : string) : Prop :=
  forall t, data self !! key <> Some (Text t).

(** An array of [r] rows and [c] columns. *)
Definition has_shape (r c : nat) (m : matrix) : Prop :=
  nrows m = r /\ ncols m = c /\ wf m.

(** Equal shape and equal entries, as numbers. *)
Definition mat_eq (a b : matrix) : Prop :=
  ncols a = ncols b /\ Forall2 (Forall2 Qeq) (mrows a) (mrows b).

(** [v @ m] for a row [v]: its dot product with each column of [m]. *)
Definition row_times (v : list Q) (m : matrix) : list Q :=
  map (fun j => Np.vdot v (Np.col j m)) (seq 0 (ncols m)).

(** [inv] is the inverse of the square matrix [m]: of its shape, and their
    product is the identity. *)
Definition inverse_of (m inv : matrix) : Prop :=
  has_shape (nrows m) (nrows m) inv
  /\ exists P, Np.dot m inv = Ok P /\ mat_eq P (Np.eye (nrows m)).

(** A row [(x, y, d)] inside the frame of an image of [h] rows and [w]
    columns, whatever [d]. *)
Definition in_frame (h w : Z) (r : list Q) : Prop :=
  match r with
  | [x; y; d] =>
      (0 <= x)%Q /\ (x <= inject_Z (w - 1))%Q /\
      (0 <= y)%Q /\ (y <= inject_Z (h - 1))%Q
  | _ => False
  end.

#[global] Instance in_frame_dec (h w : Z) (r : list Q) : Decision (in_frame h w r) :=
  match r as r0 return Decision (in_frame h w r0) with
  | [x; y; d] =>
      @and_dec _ (Qle_decision _ _) _
        (@and_dec _ (Qle_decision _ _) _
           (@and_dec _ (Qle_decision _ _) _ (Qle_decision _ _)))
  | _ => right (fun H => H)
  end.

(** A row [(x, y, d)] with [0 <= d <= max_disp]. *)
Definition disp_in_range (max_disp : Q) (r : list Q) : Prop :=
  match r with
  | [x; y; d] => (0 <= d)%Q /\ (d <= max_disp)%Q
  | _ => False
  end.

#[global] Instance disp_in_range_dec (max_disp : Q) (r : list Q)
  : Decision (disp_in_range max_disp r) :=
  match r as r0 return Decision (disp_in_range max_disp r0) with
  | [x; y; d] => @and_dec _ (Qle_decision _ _) _ (Qle_decision _ _)
  | _ => right (fun H => H)
  end.

(** A calibration with every field the accessors read, for examples. *)
Definition sample_data : CalibData :=
  {[ "P0" := Numeric [7; 0; 6; 0; 0; 7; 2; 0; 0; 0; 1; 0]%Q;
     "P1" := Numeric [7; 0; 6; -4; 0; 7; 2; 0; 0; 0; 1; 0]%Q;
     "P2" := Numeric [7; 0; 6; 5; 0; 7; 2; 0; 0; 0; 1; 0]%Q;
     "P3" := Numeric [7; 0; 6; -3; 0; 7; 2; 0; 0; 0; 1; 0]%Q;
     "R0_rect" := Numeric [1; 0; 0; 0; 1; 0; 0; 0; 1]%Q;
     "Tr_velo_to_cam" := Numeric [0; -1; 0; 0; 0; 0; -1; 0; 1; 0; 0; 0]%Q;
     "Tr_cam_to_road" := Numeric [1; 0; 0; 0; 0; 1; 0; 2; 0; 0; 1; 0]%Q;
     "Tr_imu_to_velo" := Numeric [1; 2; 3]%Q ]}.

Definition sample_calib : Calib := MkCalib "calib.txt" sample_data None.

(** The sample calibration once somebody has set [color] to false, the
    inverse of its disparity transform, and a stand-in for
    [np.linalg.inv] that returns it. *)
Definition sample_gray_calib : Calib := MkCalib "calib.txt" sample_data (Some false).

Definition sample_disp2rect : matrix :=
  Mat 4 [[1 # 7; 0; 0; 0]; [0; 1 # 7; 0; 0]; [0; 0; 0; 1 # 4];
         [-6 # 7; -2 # 7; 1; 0]]%Q.

Definition sample_inv (m : matrix) : result matrix := Ok sample_disp2rect.

(** A calibration whose [Tr_imu_to_velo] has twelve numbers. *)
Definition sample_imu12 : Calib :=
  MkCalib "calib.txt"
    {[ "R0_rect" := Numeric [1; 0; 0; 0; 1; 0; 0; 0; 1]%Q;
       "Tr_imu_to_velo" := Numeric [1; 0; 0; 5; 0; 1; 0; 6; 0; 0; 1; 7]%Q ]}
    None.

(** Stand-ins for [os.path.splitext] and [int] on plain names such as
    [0000000012.png], for examples: the name is cut at its first dot, and
    a stem is an integer when it is made of digits. *)
Definition sample_splitext (name : string) : string * string :=
  match Str.split1 "." name with
  | Some (stem, ext) => (stem, "." +:+ ext)
  | None => (name, EmptyString)
  end.

Definition sample_int (s : string) : option Z :=
  if Str.is_empty s then None
  else if Str.forallb PyFloat.is_digit s then Some (PyFloat.digits_value 0 s)
  else None.

(** Two directories: one with frames and a text file, one with an image
    whose name is not a number. *)
Definition sample_dirs : gmap string (list string) :=
  {[ "drive" := ["0000000010.png"; "notes.txt"; "0000000002.png"];
     "mixed" := ["0000000010.png"; "cover.png"; "notes.txt"] ]}.

(** * Properties of the loader *)

Section Loader.

Implicit Types (data : CalibData) (line key value : string).

Lemma split1_none (sep : ascii) (s : string) :
  Str.contains sep s = false -> Str.split1 sep s = None.
Proof.
  induction s as [|c r IH]; simpl; [done|].
  destruct (Ascii.eqb c sep); simpl; [done|].
  intros H. by rewrite IH.
Qed.

Lemma split1_first (sep : ascii) (k v : string) :
  Str.contains sep k = false ->
  Str.split1 sep (k +:+ String sep v) = Some (k, v).
Proof.
  induction k as [|c r IH]; simpl.
  - by rewrite Ascii.eqb_refl.
  - destruct (Ascii.eqb c sep); simpl; [done|].
    intros H. by rewrite (IH H).
Qed.

Lemma read_line_blank data line :
  String.length (chomp line) = 0%nat -> read_line data line = Ok data.
Proof. unfold read_line, chomp. by intros ->. Qed.

Lemma length_pos_nonempty (s : string) :
  s <> EmptyString -> (String.length s =? 0)%nat = false.
Proof. by destruct s. Qed.

Lemma read_line_no_colon data line :
  chomp line <> EmptyString ->
  Str.contains ":" (chomp line) = false ->
  read_line data line = Raise ValueError.
Proof.
  unfold read_line, chomp. intros Hne Hc.
  by rewrite (length_pos_nonempty _ Hne), (split1_none _ _ Hc).
Qed.

Lemma read_line_colon data line key raw :
  Str.split1 ":" (chomp line) = Some (key, raw) ->
  read_line data line
  = Ok (<[key := store_value (Str.strip Str.isspace raw)]> data).
Proof.
  unfold read_line, chomp. intros H. rewrite H.
  destruct (Str.strip Str.is_newline line) as [|c r]; [done|].
  simpl. by rewrite insert_insert_eq.
Qed.

Lemma read_line_cases data line :
  (exists data', read_line data line = Ok data')
  \/ read_line data line = Raise ValueError.
Proof.
  unfold read_line.
  destruct (String.length _ =? 0)%nat; [by eauto|].
  destruct (Str.split1 _ _) as [[k v]|]; by eauto.
Qed.

Lemma read_lines_bad_line (lines : list string) : forall data line,
  In line lines ->
  chomp line <> EmptyString ->
  Str.contains ":" (chomp line) = false ->
  read_lines data lines = Raise ValueError.
Proof.
  induction lines as [|l ls IH]; intros data line Hin Hne Hc; [done|].
  simpl. destruct (read_line_cases data l) as [[d' Hd]| Hr].
  - rewrite Hd. simpl. destruct Hin as [->|Hin].
    + by rewrite (read_line_no_colon data line) in Hd.
    + by apply (IH d' line).
  - by rewrite Hr.
Qed.

Lemma map_float_reject (pieces : list string) (p : string) :
  In p pieces -> PyFloat.float p = None -> map_float pieces = None.
Proof.
  induction pieces as [|q qs IH]; [done|].
  intros [->|Hin] Hp; simpl.
  - by rewrite Hp.
  - destruct (PyFloat.float q); [|done]. by rewrite (IH Hin Hp).
Qed.

Lemma split_nonempty (sep : ascii) (s : string) : Str.split sep s <> [].
Proof.
  induction s as [|c r IH]; simpl; [done|].
  destruct (Ascii.eqb c sep); [done|].
  by destruct (Str.split sep r).
Qed.

Lemma double_space_empty_piece (s : string) :
  has_double_space s = true -> In EmptyString (tail (Str.split " " s)).
Proof.
  induction s as [|a r IH]; [done|].
  destruct r as [|b r'].
  - done.
  - intros H. change (has_double_space (String a (String b r')))
      with ((Ascii.eqb a " " && Ascii.eqb b " ") || has_double_space (String b r')) in H.
    apply orb_true_iff in H as [H|H].
    + apply andb_true_iff in H as [Ha Hb].
      apply Ascii.eqb_eq in Ha, Hb. subst. simpl. left; reflexivity.
    + specialize (IH H).
      change (Str.split " " (String a (String b r')))
        with (if Ascii.eqb a " " then EmptyString :: Str.split " " (String b r')
              else match Str.split " " (String b r') with
                   | [] => [String a EmptyString]
                   | t :: ts => String a t :: ts
                   end).
      set (sp := Str.split " " (String b r')) in *. clearbody sp.
      destruct (Ascii.eqb a " "), sp as [|t ts]; simpl in *; auto.
Qed.

End Loader.



(** [C6] A line that is empty once its newline is removed is skipped; any
    other line without a colon makes the load fail with [ValueError], from
    wherever it stands in the file; with a colon, the key is the text
    before the first colon and the value what follows it, so a value may
    hold colons of its own. *)
Theorem read_calib_file_separator :
  (forall (data : CalibData) (line : string) (lines : list string),
      String.length (chomp line) = 0%nat ->
      read_line data line = Ok data
      /\ read_lines data (line :: lines) = read_lines data lines)
  /\ (forall (data : CalibData) (line : string),
      chomp line <> EmptyString ->
      Str.contains ":" (chomp line) = false ->
      read_line data line = Raise ValueError)
  /\ (forall (fs : filesystem) (path text line : string),
      fs !! path = Some text ->
      In line (Str.readlines text) ->
      chomp line <> EmptyString ->
      Str.contains ":" (chomp line) = false ->
      read_calib_file fs path = Raise ValueError)
  /\ (forall (data : CalibData) (line key rest : string),
      chomp line = key +:+ String ":" rest ->
      Str.contains ":" key = false ->
      read_line data line
      = Ok (<[key := store_value (Str.strip Str.isspace rest)]> data))
  /\ read_calib_text ("K: a:b" +:+ nl) = Ok {[ "K" := Text "a:b" ]}.
Proof.
  split; [|split; [|split; [|split]]].
  - intros data line lines H.
    pose proof (read_line_blank data line H) as Hl.
    split; [exact Hl|]. simpl. by rewrite Hl.
  - apply read_line_no_colon.
  - intros fs path text line Hfs Hin Hne Hc.
    unfold read_calib_file, read_calib_text. rewrite Hfs.
    by apply (read_lines_bad_line _ ∅ line).
  - intros data line key rest Hline Hkey.
    apply read_line_colon. rewrite Hline. by apply split1_first.
  - vm_compute. reflexivity.
Qed.

Lemma read_calib_file_separator_witness :
  In "oops" (Str.readlines ("A: 1" +:+ nl +:+ nl +:+ "oops"))
  /\ read_calib_file {[ "calib.txt" := "A: 1" +:+ nl +:+ nl +:+ "oops" ]} "calib.txt"
     = Raise ValueError.
Proof.
  split; [vm_compute; tauto|].
  apply (proj1 (proj2 (proj2 read_calib_file_separator))
           {[ "calib.txt" := "A: 1" +:+ nl +:+ nl +:+ "oops" ]}
           "calib.txt" ("A: 1" +:+ nl +:+ nl +:+ "oops") "oops").
  - reflexivity.
  - vm_compute; tauto.
  - discriminate.
  - reflexivity.
Defined.

(** [C9] A value made of float characters that has two blanks in a row is
    not turned into a vector: cutting it at every single blank leaves an
    empty piece, [float] rejects the empty piece, and the value is stored
    as its trimmed text. *)
Theorem double_space_value_kept_as_text :
  (forall value : string,
      Str.forallb in_float_chars value = true ->
      has_double_space value = true ->
      In EmptyString (Str.split " " value)
      /\ map_float (Str.split " " value) = None
      /\ store_value value = Text value)
  /\ PyFloat.float EmptyString = None
  /\ read_calib_text ("K: 1.0  2.0" +:+ nl) = Ok {[ "K" := Text "1.0  2.0" ]}.
Proof.
  split; [|split; vm_compute; reflexivity].
  intros value Hchars Hdbl.
  assert (Hin : In EmptyString (Str.split " " value)).
  { pose proof (double_space_empty_piece value Hdbl) as Ht.
    destruct (Str.split " " value); [done|]. by apply in_cons. }
  assert (Hmap : map_float (Str.split " " value) = None)
    by (by apply (map_float_reject _ EmptyString)).
  unfold store_value. by rewrite Hchars, Hmap.
Qed.

Lemma double_space_value_kept_as_text_witness :
  Str.forallb in_float_chars "1.0  2.0" = true
  /\ has_double_space "1.0  2.0" = true
  /\ store_value "1.0  2.0" = Text "1.0  2.0".
Proof.
  split; [reflexivity|]. split; [reflexivity|].
  apply (proj1 double_space_value_kept_as_text "1.0  2.0"); reflexivity.
Defined.

(** * Properties of the point primitive *)

Section Transform.

Implicit Types (points transform prod : matrix) (rows : list (list Q)).

Lemma zip_with_ones rows (x : Q) :
  zip_with app rows (replicate (length rows) [x]) = map (fun r => r ++ [x]) rows.
Proof. induction rows as [|r rs IH]; simpl; [done|]. by rewrite IH. Qed.

Lemma zip_with_map2 {A B C D : Type} (f : B -> C -> D) (g : A -> B) (h : A -> C)
    (l : list A) :
  zip_with f (map g l) (map h l) = map (fun a => f (g a) (h a)) l.
Proof. induction l as [|a l IH]; simpl; [done|]. by rewrite IH. Qed.

Lemma hstack_ones points :
  Np.hstack points (Np.ones (nrows points) 1) = Ok (promote points).
Proof.
  unfold Np.hstack, Np.ones, promote, nrows. simpl.
  rewrite length_replicate, Nat.eqb_refl.
  by rewrite (zip_with_ones (mrows points) 1%Q).
Qed.

Lemma promote_shape points :
  wf points ->
  wf (promote points) /\ nrows (promote points) = nrows points
  /\ ncols (promote points) = (ncols points + 1)%nat.
Proof.
  unfold wf, promote, nrows. simpl. intros H. repeat split.
  - apply Forall_map. eapply Forall_impl; [exact H|].
    intros r Hr. simpl. rewrite length_app, Hr. simpl. lia.
  - by rewrite length_map.
Qed.

Lemma dot_rows points transform :
  ncols points = nrows transform ->
  exists prod,
    Np.dot points transform = Ok prod
    /\ ncols prod = ncols transform
    /\ nrows prod = nrows points
    /\ wf prod.
Proof.
  intros H. unfold Np.dot. rewrite H, Nat.eqb_refl.
  eexists. split; [reflexivity|]. unfold nrows, wf. simpl.
  repeat split.
  - by rewrite length_map.
  - apply Forall_map, Forall_forall. intros r _. simpl.
    by rewrite length_map, length_seq.
Qed.

(** The normalization step on any product. *)
Lemma normalize_product prod :
  (1 <= ncols prod)%nat ->
  exists lastc,
    Np.last_col prod = Ok lastc
    /\ Np.div_rows (Np.init_cols prod) lastc
       = Mat (ncols prod - 1) (map (normalize_row false) (mrows prod))
    /\ Np.hstack (Np.div_rows (Np.init_cols prod) lastc) lastc
       = Ok (Mat (ncols prod) (map (normalize_row true) (mrows prod))).
Proof.
  intros HN. unfold Np.last_col.
  destruct (ncols prod =? 0)%nat eqn:E; [apply Nat.eqb_eq in E; lia|].
  eexists. split; [reflexivity|].
  assert (Hd : Np.div_rows (Np.init_cols prod)
                 (Mat 1 (map (fun r => [default 0%Q (last r)]) (mrows prod)))
               = Mat (ncols prod - 1) (map (normalize_row false) (mrows prod))).
  { unfold Np.div_rows, Np.init_cols. simpl. f_equal.
    rewrite zip_with_map2. apply map_ext. intros r.
    unfold normalize_row, weight. simpl. by rewrite app_nil_r. }
  split; [exact Hd|]. rewrite Hd.
  unfold Np.hstack, nrows. simpl. rewrite !length_map, Nat.eqb_refl.
  f_equal. f_equal; [lia|].
  rewrite zip_with_map2. apply map_ext. intros r.
  unfold normalize_row, weight. simpl. by rewrite app_nil_r.
Qed.

Lemma normalize_row_length (keep_last : bool) (r : list Q) (N : nat) :
  length r = N -> (1 <= N)%nat ->
  length (normalize_row keep_last r) = if keep_last then N else (N - 1)%nat.
Proof.
  intros Hr HN. unfold normalize_row.
  rewrite length_app, length_map, length_take.
  destruct keep_last; simpl; lia.
Qed.

(** The primitive on points that already have as many columns as the
    transform has rows. *)
Lemma homogeneous_transform_same_dim points transform (keep_last : bool) :
  ncols points = nrows transform ->
  exists prod,
    Np.dot points transform = Ok prod
    /\ ncols prod = ncols transform
    /\ nrows prod = nrows points
    /\ wf prod
    /\ homogeneous_transform points transform keep_last
       = if (ncols transform =? 0)%nat then Raise IndexError
         else Ok (Mat (if keep_last then ncols transform else ncols transform - 1)
                      (map (normalize_row keep_last) (mrows prod))).
Proof.
  intros HD.
  destruct (dot_rows points transform HD) as (prod & Hdot & Hc & Hr & Hwf).
  exists prod. repeat (split; [assumption|]).
  unfold homogeneous_transform.
  replace (Z.of_nat (ncols points) =? Z.of_nat (nrows transform) - 1)%Z with false
    by (symmetry; apply Z.eqb_neq; lia).
  replace (ncols points =? nrows transform)%nat with true
    by (symmetry; by apply Nat.eqb_eq).
  simpl. rewrite Hdot. simpl.
  destruct (ncols transform =? 0)%nat eqn:E.
  - unfold Np.last_col. by rewrite Hc, E.
  - apply Nat.eqb_neq in E.
    destruct (normalize_product prod) as (lastc & Hl & Hdiv & Hst); [lia|].
    rewrite Hl. simpl. rewrite <- Hc.
    destruct keep_last; simpl; [exact Hst | by rewrite Hdiv].
Qed.

End Transform.

Lemma homogeneous_transform_promote (points transform : matrix) (keep_last : bool) :
  (ncols points + 1)%nat = nrows transform ->
  homogeneous_transform points transform keep_last
  = homogeneous_transform (promote points) transform keep_last.
Proof.
  intros HD. unfold homogeneous_transform at 1 2.
  replace (Z.of_nat (ncols points) =? Z.of_nat (nrows transform) - 1)%Z with true
    by (symmetry; apply Z.eqb_eq; lia).
  rewrite hstack_ones.
  replace (Z.of_nat (ncols (promote points)) =? Z.of_nat (nrows transform) - 1)%Z
    with false by (symmetry; apply Z.eqb_neq; simpl; lia).
  replace (ncols (promote points) =? nrows transform)%nat with true
    by (symmetry; apply Nat.eqb_eq; simpl; lia).
  reflexivity.
Qed.

Lemma homogeneous_transform_mismatch (points transform : matrix) (keep_last : bool) :
  ncols points <> nrows transform ->
  (ncols points + 1)%nat <> nrows transform ->
  homogeneous_transform points transform keep_last = Raise ValueError.
Proof.
  intros H1 H2. unfold homogeneous_transform.
  replace (Z.of_nat (ncols points) =? Z.of_nat (nrows transform) - 1)%Z with false
    by (symmetry; apply Z.eqb_neq; lia).
  replace (ncols points =? nrows transform)%nat with false
    by (symmetry; by apply Nat.eqb_neq).
  reflexivity.
Qed.

(** [C1], as stated, fails: with [keep_last] the last column of the result
    of [[2, 4]] through [[1, 0], [0, 2]] is 8, the last coordinate of the
    product, and not 8 / 8. *)
Lemma homogeneous_transform_last_not_normalized :
  ~ keeps_normalized_last (Mat 2 [[2; 4]]%Q) (Mat 2 [[1; 0]; [0; 2]]%Q).
Proof.
  intros H.
  specialize (H (Mat 2 [[2 * 1 + (4 * 0 + 0); 2 * 0 + (4 * 2 + 0)]]%Q)
                (Mat 2 [[(2 * 1 + (4 * 0 + 0)) / (2 * 0 + (4 * 2 + 0));
                         2 * 0 + (4 * 2 + 0)]]%Q)
                eq_refl eq_refl).
  simpl in H. apply Forall2_cons_1 in H as [H _].
  vm_compute in H. discriminate H.
Qed.

(** [C1], amended.  With points of shape (n, D) and a transform of shape
    (M, N): when D = M - 1 the primitive works on the points with a column
    of ones appended; when D is neither M nor M - 1 it raises [ValueError];
    otherwise it multiplies, and for N = 0 raises [IndexError], while for
    N >= 1 the result has shape (n, N - 1) without [keep_last] and (n, N)
    with it, and each of its rows that comes from a row of the product
    with a last entry other than zero is that row with every entry but
    the last divided by the last, followed, when [keep_last] holds, by
    that last entry as it stands (not divided).  (For a last entry that
    is zero the code fills the row with [inf] and [nan]; nothing is said
    of such a row.) *)
Theorem homogeneous_transform_spec (points transform : matrix) (keep_last : bool) :
  ((ncols points + 1)%nat = nrows transform ->
     Np.hstack points (Np.ones (nrows points) 1) = Ok (promote points)
     /\ homogeneous_transform points transform keep_last
        = homogeneous_transform (promote points) transform keep_last)
  /\ (ncols points <> nrows transform ->
      (ncols points + 1)%nat <> nrows transform ->
      homogeneous_transform points transform keep_last = Raise ValueError)
  /\ (ncols points = nrows transform \/ (ncols points + 1)%nat = nrows transform ->
      exists prod,
        Np.dot (if (ncols points =? nrows transform)%nat then points
                else promote points) transform = Ok prod
        /\ nrows prod = nrows points
        /\ ncols prod = ncols transform
        /\ (ncols transform = 0%nat ->
            homogeneous_transform points transform keep_last = Raise IndexError)
        /\ ((1 <= ncols transform)%nat ->
            exists R,
              homogeneous_transform points transform keep_last = Ok R
              /\ (forall (i : nat) (r : list Q),
                    mrows prod !! i = Some r ->
                    ~ (weight r == 0)%Q ->
                    mrows R !! i = Some (normalize_row keep_last r))
              /\ nrows R = nrows points
              /\ ncols R = (if keep_last then ncols transform
                            else (ncols transform - 1)%nat)
              /\ wf R)).
Proof.
  split; [|split].
  - intros HD. split; [apply hstack_ones|by apply homogeneous_transform_promote].
  - apply homogeneous_transform_mismatch.
  - intros HD.
    set (ph := if (ncols points =? nrows transform)%nat then points else promote points).
    assert (Hph : ncols ph = nrows transform /\ nrows ph = nrows points
                  /\ homogeneous_transform points transform keep_last
                     = homogeneous_transform ph transform keep_last).
    { unfold ph. destruct (ncols points =? nrows transform)%nat eqn:E.
      - apply Nat.eqb_eq in E. done.
      - apply Nat.eqb_neq in E. destruct HD as [HD|HD]; [done|].
        repeat split.
        + simpl. lia.
        + unfold promote, nrows. simpl. by rewrite length_map.
        + by apply homogeneous_transform_promote. }
    destruct Hph as (Hc & Hn & ->).
    destruct (homogeneous_transform_same_dim ph transform keep_last Hc)
      as (prod & Hdot & Hpc & Hpr & Hwf & Hht).
    exists prod. split; [exact Hdot|]. split; [congruence|]. split; [exact Hpc|].
    split.
    + intros HN. by rewrite Hht, HN.
    + intros HN. rewrite Hht.
      destruct (ncols transform =? 0)%nat eqn:E; [apply Nat.eqb_eq in E; lia|].
      eexists. split; [reflexivity|]. simpl.
      split; [intros i r Hr _; by rewrite list_lookup_fmap, Hr|].
      split; [unfold nrows in *; simpl; rewrite length_map; congruence|].
      split; [done|].
      unfold wf. simpl. apply Forall_map.
      eapply Forall_impl; [exact Hwf|]. intros r Hr. simpl.
      simpl in Hr. apply normalize_row_length; lia.
Qed.

Lemma homogeneous_transform_spec_witness :
  (ncols (Mat 3 [[1; 2; 3]; [4; 5; 6]]%Q) + 1)%nat
  = nrows (Mat 4 [[1; 0; 0; 0]; [0; 1; 0; 0]; [0; 0; 1; 0]; [0; 0; 0; 2]]%Q)
  /\ exists R,
       homogeneous_transform (Mat 3 [[1; 2; 3]; [4; 5; 6]]%Q)
         (Mat 4 [[1; 0; 0; 0]; [0; 1; 0; 0]; [0; 0; 1; 0]; [0; 0; 0; 2]]%Q) true
       = Ok R
       /\ nrows R = 2%nat /\ ncols R = 4%nat
       /\ mrows R !! 1%nat = Some (normalize_row true [4; 5; 6; 2]%Q).
Proof.
  split; [reflexivity|].
  destruct (proj2 (proj2 (homogeneous_transform_spec
                            (Mat 3 [[1; 2; 3]; [4; 5; 6]]%Q)
                            (Mat 4 [[1; 0; 0; 0]; [0; 1; 0; 0]; [0; 0; 1; 0];
                                    [0; 0; 0; 2]]%Q) true))
                  (or_intror eq_refl))
    as (prod & Hdot & _ & _ & _ & H).
  destruct (H ltac:(simpl; lia)) as (R & HR & Hrow & Hn & Hc & _).
  vm_compute in Hdot. injection Hdot as <-.
  exists R. repeat split; try assumption.
  apply (Hrow 1%nat [4; 5; 6; 2]%Q); [reflexivity|].
  intros Hz. vm_compute in Hz. discriminate Hz.
Defined.

(** * Properties of the window filters *)

Section Filters.

Variables (h w : Z) (max_disp : Q).

Lemma window_test (x y d : Q) :
  Qle_bool 0 x && Qle_bool x (inject_Z (w - 1)) &&
  Qle_bool 0 y && Qle_bool y (inject_Z (h - 1)) &&
  Qle_bool 0 d && Qle_bool d max_disp = true
  <-> in_window h w max_disp [x; y; d].
Proof.
  unfold in_window. rewrite !andb_true_iff, !Qle_bool_iff. tauto.
Qed.

Lemma unpack3_transpose (xyd : matrix) :
  ncols xyd = 3%nat ->
  unpack3 (Np.transpose xyd) = Ok (Np.col 0 xyd, Np.col 1 xyd, Np.col 2 xyd).
Proof. unfold unpack3, Np.transpose. simpl. by intros ->. Qed.

Lemma select_window (rows : list (list Q)) :
  Forall (fun r => length r = 3%nat) rows ->
  Np.select rows
    (zip3 (fun x y d =>
             Qle_bool 0 x && Qle_bool x (inject_Z (w - 1)) &&
             Qle_bool 0 y && Qle_bool y (inject_Z (h - 1)) &&
             Qle_bool 0 d && Qle_bool d max_disp)
       (map (fun r => nth 0 r 0%Q) rows)
       (map (fun r => nth 1 r 0%Q) rows)
       (map (fun r => nth 2 r 0%Q) rows))
  = filter (in_window h w max_disp) rows.
Proof.
  induction 1 as [|r rows Hr _ IH]; [done|].
  destruct r as [|x [|y [|d [|? ?]]]]; try discriminate Hr.
  rewrite filter_cons. unfold zip3 in *. simpl. rewrite IH.
  pose proof (window_test x y d) as Ht. unfold in_window in Ht.
  destruct (decide _) as [Hin|Hout].
  - apply Ht in Hin. by rewrite Hin.
  - destruct (_ && _) eqn:E; [|done]. exfalso. by apply Hout, Ht.
Qed.

Lemma filter_disps_rows (xyd : matrix) (return_mask : bool) :
  wf xyd -> ncols xyd = 3%nat ->
  exists mask,
    filter_disps xyd (h, w) max_disp return_mask
    = Ok (let kept := Mat 3 (filter (in_window h w max_disp) (mrows xyd)) in
          if return_mask then RowsMask kept mask else Rows kept).
Proof.
  intros Hwf H3. unfold filter_disps.
  rewrite (unpack3_transpose xyd H3). simpl.
  unfold Np.col. rewrite select_window, H3.
  - eexists. reflexivity.
  - unfold wf in Hwf. by rewrite H3 in Hwf.
Qed.

End Filters.

Lemma Qle_bool_false (x y : Q) : (y < x)%Q -> Qle_bool x y = false.
Proof.
  intros H. destruct (Qle_bool x y) eqn:E; [|done].
  apply Qle_bool_iff in E. by apply Qlt_not_le in H.
Qed.

Lemma inject_Z_pred_lt (w : Z) : (inject_Z (w - 1) < inject_Z w)%Q.
Proof. rewrite <- Zlt_Qlt. lia. Qed.

(** [C7] On an array of rows [(x, y, d)], [filter_disps] keeps, in their
    order, exactly the rows with [0 <= x <= w - 1], [0 <= y <= h - 1] and
    [0 <= d <= max_disp], the width being [shape[1]] and the height
    [shape[0]].  With [max_disp = 255] the rows [(w, 0, 10)] and
    [(0, 0, 256)] are dropped, and [(0, 0, 0)] is kept on any image that
    has a pixel. *)
Theorem filter_disps_window :
  (forall (xyd : matrix) (h w : Z) (max_disp : Q),
      wf xyd -> ncols xyd = 3%nat ->
      filter_disps xyd (h, w) max_disp false
      = Ok (Rows (Mat 3 (filter (in_window h w max_disp) (mrows xyd))))
      /\ forall x y d : Q,
           [x; y; d] ∈ filter (in_window h w max_disp) (mrows xyd)
           <-> [x; y; d] ∈ mrows xyd
               /\ (0 <= x)%Q /\ (x <= inject_Z (w - 1))%Q
               /\ (0 <= y)%Q /\ (y <= inject_Z (h - 1))%Q
               /\ (0 <= d)%Q /\ (d <= max_disp)%Q)
  /\ (forall h w : Z,
      filter_disps (Mat 3 [[inject_Z w; 0; 10]; [0; 0; 256]]%Q) (h, w)
        default_max_disp false
      = Ok (Rows (Mat 3 []))
      /\ ((1 <= h)%Z -> (1 <= w)%Z ->
          filter_disps (Mat 3 [[inject_Z w; 0; 10]; [0; 0; 256]; [0; 0; 0]]%Q) (h, w)
            default_max_disp false
          = Ok (Rows (Mat 3 [[0; 0; 0]%Q]))
          /\ filter_disps (Mat 3 [[0; 0; 0]]%Q) (h, w) default_max_disp false
             = Ok (Rows (Mat 3 [[0; 0; 0]%Q])))).
Proof.
  split.
  - intros xyd h w max_disp Hwf H3. split.
    + destruct (filter_disps_rows h w max_disp xyd false Hwf H3) as [mask ->].
      reflexivity.
    + intros x y d. rewrite list_elem_of_filter. unfold in_window. tauto.
  - intros h w.
    assert (Hx : Qle_bool (inject_Z w) (inject_Z (w - 1)) = false)
      by apply Qle_bool_false, inject_Z_pred_lt.
    assert (H0 : forall n : Z, (1 <= n)%Z -> Qle_bool 0 (inject_Z (n - 1)) = true).
    { intros n Hn. apply Qle_bool_iff. change 0%Q with (inject_Z 0).
      rewrite <- Zle_Qle. lia. }
    split.
    + unfold filter_disps, zip3. simpl. rewrite Hx.
      by rewrite !andb_false_r.
    + intros Hh Hw. unfold filter_disps, zip3. simpl.
      rewrite Hx, (H0 h Hh), (H0 w Hw). by rewrite !andb_false_r.
Qed.

Lemma filter_disps_window_witness :
  wf (Mat 3 [[4; 2; 255]; [5; 0; 10]; [0; 0; 0]]%Q)
  /\ filter_disps (Mat 3 [[4; 2; 255]; [5; 0; 10]; [0; 0; 0]]%Q) (3, 5)%Z 255 false
     = Ok (Rows (Mat 3 (filter (in_window 3 5 255)
                          [[4; 2; 255]; [5; 0; 10]; [0; 0; 0]]%Q))).
Proof.
  assert (Hwf : wf (Mat 3 [[4; 2; 255]; [5; 0; 10]; [0; 0; 0]]%Q))
    by (repeat constructor).
  split; [exact Hwf|].
  apply (proj1 (proj1 filter_disps_window
                  (Mat 3 [[4; 2; 255]; [5; 0; 10]; [0; 0; 0]]%Q)
                  3%Z 5%Z 255%Q Hwf eq_refl)).
Defined.

(** * Properties of the [Calib] class *)

Lemma Calib_init_ok (fs : filesystem) (path : string) (color : bool) (d : CalibData) :
  read_calib_file fs path = Ok d ->
  Calib_init fs path color = Ok (MkCalib path d None).
Proof. unfold Calib_init. by intros ->. Qed.

Lemma Calib_init_inv (fs : filesystem) (path : string) (color : bool) (self : Calib) :
  Calib_init fs path color = Ok self ->
  exists d, read_calib_file fs path = Ok d /\ self = MkCalib path d None.
Proof.
  unfold Calib_init. destruct (read_calib_file fs path) as [d|e]; simpl; [|done].
  intros [= <-]. by exists d.
Qed.

Lemma get_rect2disp_no_color (self : Calib) :
  attr_color self = None -> get_rect2disp self = Raise (AttributeError "color").
Proof. unfold get_rect2disp. by intros ->. Qed.

Lemma field_missing (self : Calib) (key : string) :
  data self !! key = None -> field self key = Raise (KeyError key).
Proof. unfold field. by intros ->. Qed.

Lemma field_present (self : Calib) (key : string) (v : calib_value) :
  data self !! key = Some v -> field self key = Ok v.
Proof. unfold field. by intros ->. Qed.

Lemma reshape_ok (r c : nat) (a : list Q) :
  length a = (r * c)%nat -> Np.reshape r c a = Ok (Mat c (Np.chunks r c a)).
Proof. unfold Np.reshape. intros ->. by rewrite Nat.eqb_refl. Qed.

(** What [get_rect2disp] computes on an instance to which a [color]
    attribute has been given from outside: the pair (P0, P1) without
    [color], (P2, P3) with it. *)
Lemma get_rect2disp_with_color (self : Calib) (b : bool) (p q : list Q) :
  attr_color self = Some b ->
  data self !! proj_key (if b then 2 else 0) = Some (Numeric p) ->
  length p = 12%nat ->
  data self !! proj_key (if b then 3 else 1) = Some (Numeric q) ->
  length q = 12%nat ->
  get_rect2disp self
  = Ok (disp_stack (take 4 p) (take 4 (drop 4 p)) (take 4 (drop 8 p)) (take 4 q)).
Proof.
  intros Hc Hp Lp Hq Lq. unfold get_rect2disp. rewrite Hc. simpl.
  destruct b; simpl;
    rewrite (field_present _ _ _ Hp); simpl;
    rewrite (reshape_ok 3 4 p Lp); simpl;
    rewrite (field_present _ _ _ Hq); simpl;
    rewrite (reshape_ok 3 4 q Lq); simpl;
    by rewrite !drop_drop.
Qed.

Lemma get_disp2rect_with_color (linalg_inv : matrix -> result matrix)
    (self : Calib) (T : matrix) :
  get_rect2disp self = Ok T -> get_disp2rect linalg_inv self = linalg_inv T.
Proof. unfold get_disp2rect. by intros ->. Qed.

(** [C8] Building a [Calib] succeeds whenever the file loads, whatever
    fields it lacks; [get_velo2rect] is what raises [KeyError], for
    [Tr_velo_to_cam] when that is absent and for [R0_rect] when only that
    one is. *)
Theorem Calib_missing_field_is_lazy :
  (forall (fs : filesystem) (path : string) (color : bool) (d : CalibData),
      read_calib_file fs path = Ok d ->
      Calib_init fs path color = Ok (MkCalib path d None))
  /\ (forall self : Calib,
      data self !! "Tr_velo_to_cam" = None ->
      get_velo2rect self = Raise (KeyError "Tr_velo_to_cam"))
  /\ (forall (self : Calib) (a : list Q),
      data self !! "Tr_velo_to_cam" = Some (Numeric a) ->
      length a = 12%nat ->
      data self !! "R0_rect" = None ->
      get_velo2rect self = Raise (KeyError "R0_rect"))
  /\ (forall (fs : filesystem) (path : string) (color : bool),
      fs !! path = Some ("P0: 1 2 3" +:+ nl) ->
      exists self, Calib_init fs path color = Ok self
                   /\ get_velo2rect self = Raise (KeyError "Tr_velo_to_cam")).
Proof.
  split; [|split; [|split]].
  - apply Calib_init_ok.
  - intros self H. unfold get_velo2rect. by rewrite (field_missing _ _ H).
  - intros self a Hv Hlen H. unfold get_velo2rect.
    rewrite (field_present _ _ _ Hv). simpl.
    rewrite (reshape_ok 3 4 a Hlen). simpl.
    by rewrite (field_missing _ _ H).
  - intros fs path color H.
    assert (Hr : read_calib_file fs path = Ok {[ "P0" := Numeric [1; 2; 3]%Q ]}).
    { unfold read_calib_file. rewrite H. vm_compute. reflexivity. }
    eexists. split; [by apply Calib_init_ok|].
    vm_compute. reflexivity.
Qed.

Lemma Calib_missing_field_is_lazy_witness :
  read_calib_file {[ "calib.txt" := "R0_rect: 1 0 0 0 1 0 0 0 1" +:+ nl ]} "calib.txt"
  = Ok {[ "R0_rect" := Numeric [1; 0; 0; 0; 1; 0; 0; 0; 1]%Q ]}
  /\ Calib_init {[ "calib.txt" := "R0_rect: 1 0 0 0 1 0 0 0 1" +:+ nl ]} "calib.txt" true
     = Ok (MkCalib "calib.txt"
             {[ "R0_rect" := Numeric [1; 0; 0; 0; 1; 0; 0; 0; 1]%Q ]} None).
Proof.
  assert (H : read_calib_file
                {[ "calib.txt" := "R0_rect: 1 0 0 0 1 0 0 0 1" +:+ nl ]} "calib.txt"
              = Ok {[ "R0_rect" := Numeric [1; 0; 0; 0; 1; 0; 0; 0; 1]%Q ]})
    by (vm_compute; reflexivity).
  split; [exact H|].
  apply (proj1 Calib_missing_field_is_lazy _ _ true _ H).
Defined.

(** [C3] An instance that [Calib] builds has no [color] attribute,
    whatever [color] was passed, and [get_rect2disp], which reads it,
    raises [AttributeError] before it looks at any projection matrix. *)
Theorem get_rect2disp_color_never_set
    (fs : filesystem) (path : string) (color : bool) (self : Calib) :
  Calib_init fs path color = Ok self ->
  attr_color self = None
  /\ get_rect2disp self = Raise (AttributeError "color").
Proof.
  intros H. destruct (Calib_init_inv _ _ _ _ H) as (d & _ & ->).
  split; [done|]. by apply get_rect2disp_no_color.
Qed.

Lemma get_rect2disp_color_never_set_witness :
  Calib_init
    {[ "calib.txt" := "P0: 1 0 0 0 0 1 0 0 0 0 1 0" +:+ nl +:+
                      "P1: 1 0 0 -5 0 1 0 0 0 0 1 0" +:+ nl +:+
                      "P2: 1 0 0 0 0 1 0 0 0 0 1 0" +:+ nl +:+
                      "P3: 1 0 0 -5 0 1 0 0 0 0 1 0" +:+ nl ]}
    "calib.txt" true
  = Ok (MkCalib "calib.txt"
          {[ "P0" := Numeric [1; 0; 0; 0; 0; 1; 0; 0; 0; 0; 1; 0]%Q;
             "P1" := Numeric [1; 0; 0; -5; 0; 1; 0; 0; 0; 0; 1; 0]%Q;
             "P2" := Numeric [1; 0; 0; 0; 0; 1; 0; 0; 0; 0; 1; 0]%Q;
             "P3" := Numeric [1; 0; 0; -5; 0; 1; 0; 0; 0; 0; 1; 0]%Q ]} None)
  /\ get_rect2disp
       (MkCalib "calib.txt"
          {[ "P0" := Numeric [1; 0; 0; 0; 0; 1; 0; 0; 0; 0; 1; 0]%Q;
             "P1" := Numeric [1; 0; 0; -5; 0; 1; 0; 0; 0; 0; 1; 0]%Q;
             "P2" := Numeric [1; 0; 0; 0; 0; 1; 0; 0; 0; 0; 1; 0]%Q;
             "P3" := Numeric [1; 0; 0; -5; 0; 1; 0; 0; 0; 0; 1; 0]%Q ]} None)
     = Raise (AttributeError "color").
Proof.
  assert (H : Calib_init
    {[ "calib.txt" := "P0: 1 0 0 0 0 1 0 0 0 0 1 0" +:+ nl +:+
                      "P1: 1 0 0 -5 0 1 0 0 0 0 1 0" +:+ nl +:+
                      "P2: 1 0 0 0 0 1 0 0 0 0 1 0" +:+ nl +:+
                      "P3: 1 0 0 -5 0 1 0 0 0 0 1 0" +:+ nl ]}
    "calib.txt" true
  = Ok (MkCalib "calib.txt"
          {[ "P0" := Numeric [1; 0; 0; 0; 0; 1; 0; 0; 0; 0; 1; 0]%Q;
             "P1" := Numeric [1; 0; 0; -5; 0; 1; 0; 0; 0; 0; 1; 0]%Q;
             "P2" := Numeric [1; 0; 0; 0; 0; 1; 0; 0; 0; 0; 1; 0]%Q;
             "P3" := Numeric [1; 0; 0; -5; 0; 1; 0; 0; 0; 0; 1; 0]%Q ]} None))
    by (vm_compute; reflexivity).
  split; [exact H|].
  exact (proj2 (get_rect2disp_color_never_set _ _ _ _ H)).
Defined.

(** [C4] Whatever the instance and the points, [rect2imu] raises
    [AttributeError]: no attribute of the class is named [get_rect2imu],
    and nothing is computed before the lookup. *)
Theorem rect2imu_always_fails (linalg_inv : matrix -> result matrix)
    (self : Calib) (points : matrix) :
  assoc "get_rect2imu" (accessors linalg_inv) = None
  /\ rect2imu linalg_inv self points = Raise (AttributeError "get_rect2imu").
Proof. split; reflexivity. Qed.

(** On an instance that [Calib] builds, [get_disp2rect] and the two point
    wrappers of the disparity transform stop with [AttributeError] in
    [get_rect2disp], before the inverse is asked for. *)
Lemma get_disp2rect_color_never_set (linalg_inv : matrix -> result matrix)
    (fs : filesystem) (path : string) (color : bool) (self : Calib)
    (points : matrix) :
  Calib_init fs path color = Ok self ->
  get_disp2rect linalg_inv self = Raise (AttributeError "color")
  /\ rect2disp self points = Raise (AttributeError "color")
  /\ disp2rect linalg_inv self points = Raise (AttributeError "color").
Proof.
  intros H. destruct (Calib_init_inv _ _ _ _ H) as (d & _ & ->).
  unfold disp2rect, rect2disp, get_disp2rect.
  by rewrite get_rect2disp_no_color.
Qed.

(** [C10] The method [filter_disps] of [Calib] has no shape argument: it
    passes the module constant [image_shape = (375, 1242)], so on every
    instance it keeps exactly the rows with [0 <= x <= 1241],
    [0 <= y <= 374] and [0 <= d <= max_disp], whatever file was loaded. *)
Theorem Calib_filter_disps_fixed_window
    (self : Calib) (xyd : matrix) (max_disp : Q) :
  wf xyd -> ncols xyd = 3%nat ->
  image_shape = (375, 1242)%Z
  /\ Calib_filter_disps self xyd max_disp false
     = Ok (Rows (Mat 3 (filter (in_window 375 1242 max_disp) (mrows xyd))))
  /\ (forall x y d : Q,
        [x; y; d] ∈ filter (in_window 375 1242 max_disp) (mrows xyd)
        <-> [x; y; d] ∈ mrows xyd
            /\ (0 <= x)%Q /\ (x <= 1241)%Q
            /\ (0 <= y)%Q /\ (y <= 374)%Q
            /\ (0 <= d)%Q /\ (d <= max_disp)%Q)
  /\ (forall (other : Calib) (return_mask : bool),
        Calib_filter_disps other xyd max_disp return_mask
        = Calib_filter_disps self xyd max_disp return_mask).
Proof.
  intros Hwf H3. split; [reflexivity|]. split; [|split].
  - unfold Calib_filter_disps, image_shape.
    destruct (filter_disps_rows 375 1242 max_disp xyd false Hwf H3) as [mask ->].
    reflexivity.
  - intros x y d. rewrite list_elem_of_filter. unfold in_window.
    change (inject_Z (1242 - 1)) with 1241%Q.
    change (inject_Z (375 - 1)) with 374%Q. tauto.
  - reflexivity.
Qed.

Lemma Calib_filter_disps_fixed_window_witness :
  Calib_filter_disps (MkCalib "calib.txt" ∅ None)
    (Mat 3 [[1241; 374; 255]; [1242; 0; 10]; [0; 375; 0]]%Q) 255 false
  = Ok (Rows (Mat 3 (filter (in_window 375 1242 255)
                       [[1241; 374; 255]; [1242; 0; 10]; [0; 375; 0]]%Q))).
Proof.
  apply (Calib_filter_disps_fixed_window (MkCalib "calib.txt" ∅ None)
           (Mat 3 [[1241; 374; 255]; [1242; 0; 10]; [0; 375; 0]]%Q) 255%Q).
  - repeat constructor.
  - reflexivity.
Defined.

(** * Further properties of the loader *)

Section LoaderOutcome.

Implicit Types (data : CalibData) (line key : string) (lines : list string).

Lemma split1_some (sep : ascii) (s : string) :
  Str.contains sep s = true -> exists k v, Str.split1 sep s = Some (k, v).
Proof.
  induction s as [|c r IH]; simpl; [done|].
  destruct (Ascii.eqb c sep); simpl; [by eauto|].
  intros H. destruct (IH H) as (k & v & ->). by eauto.
Qed.

Lemma length_zero_empty (s : string) :
  (String.length s =? 0)%nat = true -> s = EmptyString.
Proof. by destruct s. Qed.

(** What one turn of the loop does to the dict when it does not raise. *)
Lemma read_line_effect data line d :
  read_line data line = Ok d ->
  d = match line_key line, line_value line with
      | Some k, Some v => <[k := v]> data
      | _, _ => data
      end.
Proof.
  unfold read_line, line_key, line_value, chomp.
  destruct (String.length _ =? 0)%nat eqn:E.
  - apply length_zero_empty in E. rewrite E. simpl. by intros [= <-].
  - destruct (Str.split1 _ _) as [[k raw]|]; [|done].
    rewrite insert_insert_eq. by intros [= <-].
Qed.

Lemma read_line_ok data line : line_ok line -> is_ok (read_line data line).
Proof.
  unfold line_ok, read_line, chomp, is_ok. intros [H|H].
  - rewrite H. simpl. by eauto.
  - destruct (String.length _ =? 0)%nat; [by eauto|].
    destruct (split1_some _ _ H) as (k & v & ->). by eauto.
Qed.

Lemma read_line_not_ok data line :
  ~ line_ok line -> read_line data line = Raise ValueError.
Proof.
  unfold line_ok. intros H. apply read_line_no_colon.
  - fold (chomp line). tauto.
  - fold (chomp line). destruct (Str.contains _ _); tauto.
Qed.

Lemma line_ok_dec line : line_ok line \/ ~ line_ok line.
Proof.
  unfold line_ok. destruct (chomp line) as [|c r]; [by left; left|].
  destruct (Str.contains ":" (String c r)); [by left; right|].
  right. by intros [?|?].
Qed.

Lemma read_lines_outcome lines : forall data,
  (Forall line_ok lines -> is_ok (read_lines data lines))
  /\ (~ Forall line_ok lines -> read_lines data lines = Raise ValueError).
Proof.
  induction lines as [|l ls IH]; intros data.
  - split; [by exists data|]. intros H. by destruct H.
  - simpl. destruct (line_ok_dec l) as [Hl|Hl].
    + destruct (read_line_ok data l Hl) as [d' ->]. simpl.
      destruct (IH d') as [IH1 IH2]. split.
      * intros H. apply Forall_cons_1 in H as [_ H]. by apply IH1.
      * intros H. apply IH2. intros Hls. apply H. by constructor.
    + rewrite (read_line_not_ok data l Hl). split; [|done].
      intros H. by apply Forall_cons_1 in H as [? _].
Qed.

Lemma Forall_line_ok_dec lines : Forall line_ok lines \/ ~ Forall line_ok lines.
Proof.
  induction lines as [|l ls [IH|IH]].
  - left. constructor.
  - destruct (line_ok_dec l) as [Hl|Hl]; [left; by constructor|].
    right. intros H. by apply Forall_cons_1 in H as [? _].
  - right. intros H. by apply Forall_cons_1 in H as [_ ?].
Qed.

Lemma read_lines_app lines1 lines2 data :
  read_lines data (lines1 ++ lines2)
  = (d ← read_lines data lines1; read_lines d lines2).
Proof.
  revert data. induction lines1 as [|l ls IH]; intros data; simpl; [done|].
  destruct (read_line data l) as [d'|e]; simpl; [apply IH|done].
Qed.

(** A key that no line assigns keeps what it had. *)
Lemma read_lines_untouched lines key : forall data d,
  read_lines data lines = Ok d ->
  Forall (fun l => line_key l <> Some key) lines ->
  d !! key = data !! key.
Proof.
  induction lines as [|l ls IH]; intros data d; simpl.
  - by intros [= <-].
  - destruct (read_line data l) as [d'|e] eqn:E; simpl; [|done].
    intros Hd H. apply Forall_cons_1 in H as [Hl Hls].
    rewrite (IH d' d Hd Hls). apply read_line_effect in E. subst d'.
    destruct (line_key l) as [k|]; [|done].
    destruct (line_value l); [|done].
    apply lookup_insert_ne. congruence.
Qed.

Lemma line_key_value line key :
  line_key line = Some key -> exists v, line_value line = Some v.
Proof.
  unfold line_key, line_value.
  destruct (Str.split1 _ _) as [[k raw]|]; [by eauto|done].
Qed.

End LoaderOutcome.

(** [X1] [read_calib_file] returns exactly when the path can be opened and
    every line of the text is blank or has a colon; once the file is
    open, it raises [ValueError] exactly when some line is neither, and
    raises nothing else. *)
Theorem read_calib_file_outcome (fs : filesystem) (path : string) :
  (is_ok (read_calib_file fs path)
   <-> exists text, fs !! path = Some text /\ Forall line_ok (Str.readlines text))
  /\ (forall text, fs !! path = Some text ->
      (read_calib_file fs path = Raise ValueError
       <-> ~ Forall line_ok (Str.readlines text))
      /\ (forall e, read_calib_file fs path = Raise e -> e = ValueError)).
Proof.
  unfold read_calib_file, read_calib_text.
  destruct (fs !! path) as [text|].
  - destruct (read_lines_outcome (Str.readlines text) ∅) as [H1 H2].
    destruct (Forall_line_ok_dec (Str.readlines text)) as [H|H].
    + destruct (H1 H) as [d Hd]. rewrite Hd. split.
      * split; [intros _; by exists text|by exists d].
      * intros t [= <-]. split; [|done]. split; [done|]. intros Hn. by destruct Hn.
    + rewrite (H2 H). split.
      * split; [by intros [d ?]|]. intros (t & [= <-] & Ht). done.
      * intros t [= <-]. split; [done|]. by intros e [= <-].
  - split; [|done]. split; [by intros [d ?]|by intros (t & ? & _)].
Qed.

Lemma read_calib_file_outcome_witness :
  is_ok (read_calib_file {[ "calib.txt" := "A: 1" +:+ nl +:+ nl +:+ "B: x" ]}
           "calib.txt").
Proof.
  apply (proj1 (read_calib_file_outcome _ _)).
  exists ("A: 1" +:+ nl +:+ nl +:+ "B: x"). split; [reflexivity|].
  repeat constructor; by (left + right).
Defined.

Lemma read_lines_keys (lines : list string) (key : string) :
  forall (data d : CalibData),
  read_lines data lines = Ok d ->
  (is_Some (d !! key)
   <-> is_Some (data !! key) \/ exists line, line ∈ lines /\ line_key line = Some key).
Proof.
  induction lines as [|l ls IH]; intros data d; simpl.
  - intros [= <-]. split; [by left|]. intros [H|(line & Hin & _)]; [done|].
    by apply elem_of_nil in Hin.
  - destruct (read_line data l) as [d'|e] eqn:E; simpl; [|done].
    intros Hd. rewrite (IH d' d Hd). apply read_line_effect in E.
    assert (Hstep : is_Some (d' !! key)
                    <-> is_Some (data !! key) \/ line_key l = Some key).
    { subst d'. destruct (line_key l) as [k|] eqn:Ek.
      - destruct (line_key_value l k Ek) as [v ->].
        destruct (decide (k = key)) as [->|Hne].
        + rewrite lookup_insert_eq. split; [by right|by eauto].
        + rewrite lookup_insert_ne by done. split; [by left|].
          intros [H|[= H]]; [done|by destruct Hne].
      - destruct (line_value l); (split; [by left|]); by intros [H|H]. }
    rewrite Hstep. split.
    + intros [[H|H]|(line & Hin & Hk)].
      * by left.
      * right. exists l. split; [by left|done].
      * right. exists line. split; [by right|done].
    + intros [H|(line & Hin & Hk)].
      * by left; left.
      * apply elem_of_cons in Hin as [->|Hin]; [by left; right|].
        right. by exists line.
Qed.

(** [X2] The keys of a loaded dict are exactly the texts that stand before
    the first colon of some line of the file: no key is invented and none
    is lost. *)
Theorem read_calib_file_keys
    (fs : filesystem) (path text : string) (d : CalibData) (key : string) :
  fs !! path = Some text ->
  read_calib_file fs path = Ok d ->
  (is_Some (d !! key)
   <-> exists line, line ∈ Str.readlines text /\ line_key line = Some key).
Proof.
  unfold read_calib_file, read_calib_text. intros -> H.
  rewrite (read_lines_keys _ key ∅ d H), lookup_empty.
  split; [|by right]. intros [[? [=]]|?]; done.
Qed.

Lemma read_calib_file_keys_witness :
  is_Some (({[ "K" := Text "a:b" ]} : CalibData) !! "K")
  <-> exists line, line ∈ Str.readlines ("K: a:b" +:+ nl) /\ line_key line = Some "K".
Proof.
  apply (read_calib_file_keys {[ "calib.txt" := "K: a:b" +:+ nl ]} "calib.txt"
           ("K: a:b" +:+ nl) {[ "K" := Text "a:b" ]} "K").
  - reflexivity.
  - vm_compute. reflexivity.
Defined.

Lemma read_lines_last (data d : CalibData) (before after : list string)
    (line key : string) (v : calib_value) :
  read_lines data (before ++ line :: after) = Ok d ->
  line_key line = Some key ->
  line_value line = Some v ->
  Forall (fun l => line_key l <> Some key) after ->
  d !! key = Some v.
Proof.
  intros H Hk Hv Hafter. rewrite read_lines_app in H.
  destruct (read_lines data before) as [d1|e]; simpl in H; [|done].
  destruct (read_line d1 line) as [d2|e] eqn:E; simpl in H; [|done].
  rewrite (read_lines_untouched after key d2 d H Hafter).
  apply read_line_effect in E. rewrite Hk, Hv in E. subst d2.
  apply lookup_insert_eq.
Qed.

(** [X3] When several lines of a file assign the same key, the dict holds
    the value of the last of them. *)
Theorem read_calib_file_last_wins
    (fs : filesystem) (path text : string) (d : CalibData)
    (before after : list string) (line key : string) (v : calib_value) :
  fs !! path = Some text ->
  read_calib_file fs path = Ok d ->
  Str.readlines text = before ++ line :: after ->
  line_key line = Some key ->
  line_value line = Some v ->
  Forall (fun l => line_key l <> Some key) after ->
  d !! key = Some v.
Proof.
  unfold read_calib_file, read_calib_text. intros -> H Hlines.
  rewrite Hlines in H. intros Hk Hv Hafter.
  exact (read_lines_last ∅ d before after line key v H Hk Hv Hafter).
Qed.

Lemma read_calib_file_last_wins_witness :
  ({[ "A" := Numeric [2%Q]; "B" := Text "x" ]} : CalibData) !! "A"
  = Some (Numeric [2%Q]).
Proof.
  apply (read_calib_file_last_wins
           {[ "calib.txt" := "A: 1" +:+ nl +:+ "A: 2" +:+ nl +:+ "B: x" +:+ nl ]}
           "calib.txt" ("A: 1" +:+ nl +:+ "A: 2" +:+ nl +:+ "B: x" +:+ nl)
           {[ "A" := Numeric [2%Q]; "B" := Text "x" ]}
           ["A: 1" +:+ nl] ["B: x" +:+ nl] ("A: 2" +:+ nl) "A" (Numeric [2%Q])).
  - reflexivity.
  - vm_compute. reflexivity.
  - reflexivity.
  - reflexivity.
  - reflexivity.
  - repeat constructor; discriminate.
Defined.

Section StoredValues.

Lemma lstrip_starts (p : ascii -> bool) (s : string) :
  starts_with p (Str.lstrip p s) = false.
Proof.
  induction s as [|c r IH]; simpl; [done|].
  destruct (p c) eqn:E; [exact IH|]. simpl. exact E.
Qed.

Lemma rstrip_ends (p : ascii -> bool) (s : string) :
  ends_with p (Str.rstrip p s) = false.
Proof.
  induction s as [|c r IH]; simpl; [done|].
  destruct (Str.rstrip p r) as [|c' r'] eqn:E.
  - destruct (p c) eqn:Ec; simpl; [done|exact Ec].
  - exact IH.
Qed.

Lemma rstrip_starts (p : ascii -> bool) (s : string) :
  starts_with p s = false -> starts_with p (Str.rstrip p s) = false.
Proof.
  destruct s as [|c r]; simpl; [done|]. intros H.
  destruct (Str.rstrip p r); [by rewrite H|done].
Qed.

Lemma strip_trimmed (p : ascii -> bool) (s : string) :
  starts_with p (Str.strip p s) = false /\ ends_with p (Str.strip p s) = false.
Proof.
  unfold Str.strip. split; [|apply rstrip_ends].
  apply rstrip_starts, lstrip_starts.
Qed.

Lemma map_float_length (pieces : list string) (xs : list Q) :
  map_float pieces = Some xs -> length xs = length pieces.
Proof.
  revert xs. induction pieces as [|p ps IH]; intros xs; simpl.
  - by intros [= <-].
  - destruct (PyFloat.float p); [|done].
    destruct (map_float ps) as [qs|]; [|done].
    intros [= <-]. simpl. by rewrite (IH qs).
Qed.

Lemma store_value_well_stored (raw : string) :
  well_stored (store_value (Str.strip Str.isspace raw)).
Proof.
  unfold store_value.
  destruct (Str.forallb _ _); [|apply strip_trimmed].
  destruct (map_float _) as [xs|] eqn:E; [|apply strip_trimmed].
  simpl. apply map_float_length in E. intros ->.
  simpl in E. symmetry in E. apply length_zero_iff_nil in E.
  by apply split_nonempty in E.
Qed.

Lemma read_lines_well_stored (lines : list string) : forall (data d : CalibData),
  read_lines data lines = Ok d ->
  map_Forall (fun _ v => well_stored v) data ->
  map_Forall (fun _ v => well_stored v) d.
Proof.
  induction lines as [|l ls IH]; intros data d; simpl.
  - by intros [= <-].
  - destruct (read_line data l) as [d'|e] eqn:E; simpl; [|done].
    intros Hd Hdata. apply (IH d' d Hd).
    apply read_line_effect in E. subst d'.
    unfold line_key, line_value.
    destruct (Str.split1 _ _) as [[k raw]|]; [|done].
    apply map_Forall_insert_2; [apply store_value_well_stored|done].
Qed.

End StoredValues.

(** [X4] Every value of a loaded dict is either a text that neither starts
    nor ends with white space, or a vector with at least one number. *)
Theorem read_calib_file_values_well_stored
    (fs : filesystem) (path key : string) (d : CalibData) (v : calib_value) :
  read_calib_file fs path = Ok d ->
  d !! key = Some v ->
  match v with
  | Text t =>
      starts_with Str.isspace t = false /\ ends_with Str.isspace t = false
  | Numeric xs => xs <> []
  end.
Proof.
  unfold read_calib_file, read_calib_text.
  destruct (fs !! path) as [text|]; [|done]. intros H Hv.
  assert (Hall : map_Forall (fun _ v => well_stored v) d).
  { apply (read_lines_well_stored _ ∅ d H), map_Forall_empty. }
  exact (Hall key v Hv).
Qed.

Lemma read_calib_file_values_well_stored_witness :
  starts_with Str.isspace "foo bar" = false
  /\ ends_with Str.isspace "foo bar" = false.
Proof.
  apply (read_calib_file_values_well_stored
           {[ "calib.txt" := "S:   foo bar  " +:+ nl ]} "calib.txt" "S"
           {[ "S" := Text "foo bar" ]} (Text "foo bar")).
  - vm_compute. reflexivity.
  - reflexivity.
Defined.

(** * Further properties of the window filters *)

Section FilterRows.

Variables (h w : Z).

Lemma frame_test (x y : Q) :
  Qle_bool 0 x && Qle_bool x (inject_Z (w - 1)) &&
  Qle_bool 0 y && Qle_bool y (inject_Z (h - 1)) = true
  <-> in_frame h w [x; y; 0%Q].
Proof.
  unfold in_frame. rewrite !andb_true_iff, !Qle_bool_iff. tauto.
Qed.

Lemma select_frame (rows : list (list Q)) :
  Forall (fun r => length r = 3%nat) rows ->
  Np.select rows
    (zip3 (fun x y (_ : Q) =>
             Qle_bool 0 x && Qle_bool x (inject_Z (w - 1)) &&
             Qle_bool 0 y && Qle_bool y (inject_Z (h - 1)))
       (map (fun r => nth 0 r 0%Q) rows)
       (map (fun r => nth 1 r 0%Q) rows)
       (map (fun r => nth 2 r 0%Q) rows))
  = filter (in_frame h w) rows.
Proof.
  induction 1 as [|r rows Hr _ IH]; [done|].
  destruct r as [|x [|y [|d [|? ?]]]]; try discriminate Hr.
  rewrite filter_cons. unfold zip3 in *. simpl. rewrite IH.
  pose proof (frame_test x y) as Ht. unfold in_frame in Ht.
  destruct (decide _) as [Hin|Hout].
  - apply Ht in Hin. by rewrite Hin.
  - destruct (_ && _) eqn:E; [|done]. exfalso. by apply Hout, Ht.
Qed.

Lemma filter_depths_rows (xyd : matrix) :
  wf xyd -> ncols xyd = 3%nat ->
  filter_depths xyd (h, w) = Ok (Mat 3 (filter (in_frame h w) (mrows xyd))).
Proof.
  intros Hwf H3. unfold filter_depths.
  rewrite (unpack3_transpose xyd H3). simpl.
  unfold Np.col. rewrite select_frame, H3; [done|].
  unfold wf in Hwf. by rewrite H3 in Hwf.
Qed.

Lemma mask_window (max_disp : Q) (rows : list (list Q)) :
  Forall (fun r => length r = 3%nat) rows ->
  zip3 (fun x y d =>
          Qle_bool 0 x && Qle_bool x (inject_Z (w - 1)) &&
          Qle_bool 0 y && Qle_bool y (inject_Z (h - 1)) &&
          Qle_bool 0 d && Qle_bool d max_disp)
    (map (fun r => nth 0 r 0%Q) rows)
    (map (fun r => nth 1 r 0%Q) rows)
    (map (fun r => nth 2 r 0%Q) rows)
  = map (fun r => bool_decide (in_window h w max_disp r)) rows.
Proof.
  induction 1 as [|r rows Hr _ IH]; [done|].
  destruct r as [|x [|y [|d [|? ?]]]]; try discriminate Hr.
  unfold zip3 in *. simpl. rewrite IH. f_equal.
  pose proof (window_test h w max_disp x y d) as Ht.
  destruct (bool_decide _) eqn:Eb.
  - apply bool_decide_eq_true in Eb. by apply Ht.
  - apply bool_decide_eq_false in Eb.
    destruct (_ && _) eqn:E; [|done]. exfalso. by apply Eb, Ht.
Qed.

End FilterRows.

Lemma wf_filter (c : nat) (P : list Q -> Prop) `{!forall r, Decision (P r)}
    (rows : list (list Q)) :
  wf (Mat c rows) -> wf (Mat c (filter P rows)).
Proof.
  unfold wf. simpl. rewrite !Forall_forall. intros Hall r Hr.
  apply list_elem_of_filter in Hr as [_ Hr]. by apply Hall.
Qed.

Lemma unpack3_wrong_width (xyd : matrix) :
  ncols xyd <> 3%nat -> unpack3 (Np.transpose xyd) = Raise ValueError.
Proof.
  unfold unpack3, Np.transpose. simpl.
  destruct (ncols xyd) as [|[|[|[|n]]]]; simpl; done.
Qed.

Lemma count_mask (P : list Q -> Prop) `{!forall r, Decision (P r)}
    (rows : list (list Q)) :
  length (filter P rows)
  = length (filter (fun b => b = true) (map (fun r => bool_decide (P r)) rows)).
Proof.
  induction rows as [|r rows IH]; [done|].
  simpl map. rewrite !filter_cons.
  destruct (decide (P r)) as [Hp|Hp].
  - rewrite (bool_decide_eq_true_2 _ Hp). simpl. by rewrite IH.
  - rewrite (bool_decide_eq_false_2 _ Hp). simpl. exact IH.
Qed.

(** [X5] On an array of rows [(x, y, d)], [filter_depths] keeps, in their
    order, exactly the rows with [0 <= x <= w - 1] and [0 <= y <= h - 1],
    whatever their third entry; the method of [Calib] does the same with
    the shape its caller gives. *)
Theorem filter_depths_frame (self : Calib) (xyd : matrix) (h w : Z) :
  wf xyd -> ncols xyd = 3%nat ->
  filter_depths xyd (h, w) = Ok (Mat 3 (filter (in_frame h w) (mrows xyd)))
  /\ Calib_filter_depths self xyd (h, w)
     = Ok (Mat 3 (filter (in_frame h w) (mrows xyd)))
  /\ forall x y d : Q,
       [x; y; d] ∈ filter (in_frame h w) (mrows xyd)
       <-> [x; y; d] ∈ mrows xyd
           /\ (0 <= x)%Q /\ (x <= inject_Z (w - 1))%Q
           /\ (0 <= y)%Q /\ (y <= inject_Z (h - 1))%Q.
Proof.
  intros Hwf H3. unfold Calib_filter_depths.
  rewrite (filter_depths_rows h w xyd Hwf H3).
  split; [done|]. split; [done|].
  intros x y d. rewrite list_elem_of_filter. unfold in_frame. tauto.
Qed.

Lemma filter_depths_frame_witness :
  filter_depths (Mat 3 [[4; 2; 900]; [5; 0; 10]; [0; 0; -1]]%Q) (3, 5)%Z
  = Ok (Mat 3 (filter (in_frame 3 5) [[4; 2; 900]; [5; 0; 10]; [0; 0; -1]]%Q)).
Proof.
  apply (filter_depths_frame (MkCalib "calib.txt" ∅ None)
           (Mat 3 [[4; 2; 900]; [5; 0; 10]; [0; 0; -1]]%Q) 3%Z 5%Z).
  - repeat constructor.
  - reflexivity.
Defined.

(** [X6] [filter_disps] is [filter_depths] followed by the bound on the
    disparity: its rows are the rows of [filter_depths] with
    [0 <= d <= max_disp], and applying it to the output of [filter_depths]
    gives what it gives on the input. *)
Theorem filter_disps_after_depths (xyd : matrix) (h w : Z) (max_disp : Q) :
  wf xyd -> ncols xyd = 3%nat ->
  exists frame,
    filter_depths xyd (h, w) = Ok frame
    /\ filter_disps xyd (h, w) max_disp false
       = Ok (Rows (Mat 3 (filter (disp_in_range max_disp) (mrows frame))))
    /\ filter_disps frame (h, w) max_disp false
       = filter_disps xyd (h, w) max_disp false.
Proof.
  intros Hwf H3.
  assert (Hsplit : forall r, disp_in_range max_disp r /\ in_frame h w r
                             <-> in_window h w max_disp r).
  { intros [|x [|y [|d [|? ?]]]]; simpl; tauto. }
  assert (Hwf' : wf (Mat 3 (filter (in_frame h w) (mrows xyd)))).
  { apply wf_filter. destruct xyd as [c rows]. simpl in *. by subst c. }
  eexists. split; [by apply filter_depths_rows|]. simpl.
  destruct (filter_disps_rows h w max_disp xyd false Hwf H3) as [m ->].
  destruct (filter_disps_rows h w max_disp _ false Hwf' eq_refl) as [m' ->].
  simpl. rewrite list_filter_filter, (list_filter_iff _ _ _ Hsplit).
  split; [done|]. do 3 f_equal.
  rewrite list_filter_filter. apply list_filter_iff.
  intros r. rewrite <- Hsplit. tauto.
Qed.

Lemma filter_disps_after_depths_witness :
  exists frame,
    filter_depths (Mat 3 [[4; 2; 900]; [5; 0; 10]; [0; 0; 7]]%Q) (3, 5)%Z = Ok frame
    /\ filter_disps (Mat 3 [[4; 2; 900]; [5; 0; 10]; [0; 0; 7]]%Q) (3, 5)%Z 255 false
       = Ok (Rows (Mat 3 (filter (disp_in_range 255) (mrows frame))))
    /\ filter_disps frame (3, 5)%Z 255 false
       = filter_disps (Mat 3 [[4; 2; 900]; [5; 0; 10]; [0; 0; 7]]%Q) (3, 5)%Z 255 false.
Proof.
  apply (filter_disps_after_depths
           (Mat 3 [[4; 2; 900]; [5; 0; 10]; [0; 0; 7]]%Q) 3%Z 5%Z 255%Q).
  - repeat constructor.
  - reflexivity.
Defined.

(** [X7] An array whose rows do not have exactly three entries makes both
    filters, and both methods of [Calib], raise [ValueError]. *)
Theorem filters_need_three_columns
    (self : Calib) (xyd : matrix) (shape : Z * Z) (max_disp : Q)
    (return_mask : bool) :
  ncols xyd <> 3%nat ->
  filter_disps xyd shape max_disp return_mask = Raise ValueError
  /\ filter_depths xyd shape = Raise ValueError
  /\ Calib_filter_disps self xyd max_disp return_mask = Raise ValueError
  /\ Calib_filter_depths self xyd shape = Raise ValueError.
Proof.
  intros H. unfold Calib_filter_disps, Calib_filter_depths, filter_disps, filter_depths.
  by rewrite (unpack3_wrong_width xyd H).
Qed.

Lemma filters_need_three_columns_witness :
  filter_disps (Mat 2 [[1; 2]]%Q) (375, 1242)%Z 255 true = Raise ValueError.
Proof.
  apply (filters_need_three_columns (MkCalib "calib.txt" ∅ None)
           (Mat 2 [[1; 2]]%Q) (375, 1242)%Z 255%Q true).
  discriminate.
Defined.

(** [X8] With [return_mask], [filter_disps] returns the rows it returns
    without it, and a mask with one entry for each input row, true exactly
    for the rows inside the window; the number of rows returned is the
    number of true entries. *)
Theorem filter_disps_mask (xyd : matrix) (h w : Z) (max_disp : Q) :
  wf xyd -> ncols xyd = 3%nat ->
  exists kept mask,
    filter_disps xyd (h, w) max_disp true = Ok (RowsMask kept mask)
    /\ filter_disps xyd (h, w) max_disp false = Ok (Rows kept)
    /\ length mask = nrows xyd
    /\ (forall (i : nat) (r : list Q),
          mrows xyd !! i = Some r ->
          mask !! i = Some (bool_decide (in_window h w max_disp r)))
    /\ nrows kept = length (filter (fun b => b = true) mask).
Proof.
  intros Hwf H3.
  assert (Hrows : Forall (fun r => length r = 3%nat) (mrows xyd)).
  { unfold wf in Hwf. by rewrite H3 in Hwf. }
  exists (Mat 3 (filter (in_window h w max_disp) (mrows xyd))),
         (map (fun r => bool_decide (in_window h w max_disp r)) (mrows xyd)).
  split; [|split; [|split; [|split]]].
  - unfold filter_disps. rewrite (unpack3_transpose xyd H3). simpl.
    unfold Np.col. rewrite (select_window h w max_disp _ Hrows).
    by rewrite (mask_window h w max_disp _ Hrows), H3.
  - by destruct (filter_disps_rows h w max_disp xyd false Hwf H3) as [m ->].
  - unfold nrows. by rewrite length_map.
  - intros i r Hr. by rewrite list_lookup_fmap, Hr.
  - unfold nrows. simpl. apply count_mask.
Qed.

Lemma filter_disps_mask_witness :
  exists kept mask,
    filter_disps (Mat 3 [[4; 2; 255]; [5; 0; 10]; [0; 0; 0]]%Q) (3, 5)%Z 255 true
    = Ok (RowsMask kept mask)
    /\ length mask = 3%nat.
Proof.
  destruct (filter_disps_mask (Mat 3 [[4; 2; 255]; [5; 0; 10]; [0; 0; 0]]%Q)
              3%Z 5%Z 255%Q) as (kept & mask & H1 & _ & H2 & _).
  - repeat constructor.
  - reflexivity.
  - exists kept, mask. split; assumption.
Defined.

(** [X9] Filtering twice is filtering once: [filter_disps] leaves its own
    output unchanged, and so does [filter_depths]. *)
Theorem filters_idempotent (xyd kept : matrix) (h w : Z) (max_disp : Q) :
  wf xyd -> ncols xyd = 3%nat ->
  (filter_disps xyd (h, w) max_disp false = Ok (Rows kept) ->
   filter_disps kept (h, w) max_disp false = Ok (Rows kept))
  /\ (filter_depths xyd (h, w) = Ok kept ->
      filter_depths kept (h, w) = Ok kept).
Proof.
  intros Hwf H3.
  assert (Hw : forall (P : list Q -> Prop) `{!forall r, Decision (P r)},
             wf (Mat 3 (filter P (mrows xyd)))).
  { intros P ?. apply wf_filter. destruct xyd as [c rows]. simpl in *. by subst c. }
  split.
  - destruct (filter_disps_rows h w max_disp xyd false Hwf H3) as [m ->].
    simpl. intros [= <-].
    destruct (filter_disps_rows h w max_disp _ false (Hw (in_window h w max_disp) _)
                eq_refl) as [m' ->].
    simpl. by rewrite list_filter_filter_l.
  - rewrite (filter_depths_rows h w xyd Hwf H3). intros [= <-].
    rewrite (filter_depths_rows h w _ (Hw (in_frame h w) _) eq_refl).
    simpl. by rewrite list_filter_filter_l.
Qed.

Lemma filters_idempotent_witness :
  filter_disps (Mat 3 [[0; 0; 0]]%Q) (3, 5)%Z 255 false
  = Ok (Rows (Mat 3 [[0; 0; 0]]%Q)).
Proof.
  apply (proj1 (filters_idempotent
                  (Mat 3 [[4; 2; 900]; [5; 0; 10]; [0; 0; 0]]%Q)
                  (Mat 3 [[0; 0; 0]]%Q) 3%Z 5%Z 255%Q
                  ltac:(repeat constructor) eq_refl)).
  vm_compute. reflexivity.
Defined.

(** * Further properties of the point primitive *)

Section KeepLast.

Lemma normalize_row_init (r : list Q) :
  take (length (normalize_row true r) - 1) (normalize_row true r)
  = normalize_row false r.
Proof.
  unfold normalize_row. rewrite app_nil_r, length_app. simpl.
  replace (length (map (fun x => (x / weight r)%Q) (take (length r - 1) r)) + 1 - 1)%nat
    with (length (map (fun x => (x / weight r)%Q) (take (length r - 1) r))) by lia.
  apply take_app_length.
Qed.

Lemma keep_last_same_dim (points transform : matrix) :
  ncols points = nrows transform ->
  (forall R, homogeneous_transform points transform true = Ok R ->
             homogeneous_transform points transform false = Ok (Np.init_cols R))
  /\ (forall e, homogeneous_transform points transform true = Raise e ->
                homogeneous_transform points transform false = Raise e).
Proof.
  intros HD.
  destruct (homogeneous_transform_same_dim points transform true HD)
    as (prod & Hdot & _ & _ & _ & Ht).
  destruct (homogeneous_transform_same_dim points transform false HD)
    as (prod' & Hdot' & _ & _ & _ & Hf).
  rewrite Hdot in Hdot'. injection Hdot' as <-.
  rewrite Ht, Hf. destruct (ncols transform =? 0)%nat; [done|].
  split; [|done]. intros R [= <-]. unfold Np.init_cols. simpl.
  do 2 f_equal. rewrite map_map. apply map_ext. intros r.
  symmetry. apply normalize_row_init.
Qed.

Lemma keep_last_drop (points transform : matrix) :
  (forall R, homogeneous_transform points transform true = Ok R ->
             homogeneous_transform points transform false = Ok (Np.init_cols R))
  /\ (forall e, homogeneous_transform points transform true = Raise e ->
                homogeneous_transform points transform false = Raise e).
Proof.
  destruct (decide (ncols points = nrows transform)) as [HD|HD].
  - by apply keep_last_same_dim.
  - destruct (decide ((ncols points + 1)%nat = nrows transform)) as [HP|HP].
    + rewrite !(homogeneous_transform_promote points transform _ HP).
      apply keep_last_same_dim. simpl. lia.
    + rewrite !(homogeneous_transform_mismatch points transform _ HD HP).
      split; [done|]. by intros e [= <-].
Qed.

End KeepLast.

(** [X10] [velo2img] is [velo2depth] without its last column: when
    [velo2depth] returns an array, [velo2img] returns that array less the
    depth column, and when one raises the other raises the same. *)
Theorem velo2img_drops_depth (self : Calib) (points : matrix) (cam_idx : Z) :
  (forall R, velo2depth self points cam_idx = Ok R ->
             velo2img self points cam_idx = Ok (Np.init_cols R))
  /\ (forall e, velo2depth self points cam_idx = Raise e ->
                velo2img self points cam_idx = Raise e).
Proof.
  unfold velo2depth, velo2img.
  destruct (get_velo2depth self cam_idx) as [T|e0]; simpl.
  - apply keep_last_drop.
  - split; [done|]. by intros e [= <-].
Qed.

Lemma velo2img_drops_depth_witness :
  match velo2depth sample_calib (Mat 3 [[1; 2; 3]; [4; 5; 6]]%Q) 2 with
  | Ok R => velo2img sample_calib (Mat 3 [[1; 2; 3]; [4; 5; 6]]%Q) 2
            = Ok (Np.init_cols R)
  | Raise _ => False
  end.
Proof.
  destruct (velo2depth sample_calib (Mat 3 [[1; 2; 3]; [4; 5; 6]]%Q) 2)
    as [R|e] eqn:E.
  - exact (proj1 (velo2img_drops_depth sample_calib _ 2%Z) R E).
  - vm_compute in E. discriminate E.
Defined.

Section Identity.

Lemma vdot_cons (x y : Q) (u v : list Q) :
  Np.vdot (x :: u) (y :: v) = (x * y + Np.vdot u v)%Q.
Proof. reflexivity. Qed.

Lemma col_eye (N j : nat) :
  (j < N)%nat ->
  Np.col j (Np.eye N)
  = map (fun i => if (i =? j)%nat then 1%Q else 0%Q) (seq 0 N).
Proof.
  intros Hj. unfold Np.col, Np.eye. simpl. rewrite map_map.
  apply map_ext. intros i.
  rewrite nth_lookup, list_lookup_fmap, lookup_seq_lt by done. reflexivity.
Qed.

Lemma vdot_unit_zero (r : list Q) : forall s j : nat,
  (j < s)%nat ->
  (Np.vdot r (map (fun i => if (i =? j)%nat then 1 else 0) (seq s (length r))) == 0)%Q.
Proof.
  induction r as [|x r IH]; intros s j Hj; [reflexivity|].
  simpl length. simpl seq. simpl map. rewrite vdot_cons.
  rewrite (IH (S s) j) by lia.
  replace (s =? j)%nat with false by (symmetry; apply Nat.eqb_neq; lia).
  ring.
Qed.

Lemma vdot_unit (r : list Q) : forall s j : nat,
  (s <= j)%nat ->
  (Np.vdot r (map (fun i => if (i =? j)%nat then 1 else 0) (seq s (length r)))
   == nth (j - s) r 0)%Q.
Proof.
  induction r as [|x r IH]; intros s j Hj.
  - simpl. by destruct (j - s)%nat.
  - simpl length. simpl seq. simpl map. rewrite vdot_cons.
    destruct (s =? j)%nat eqn:E.
    + apply Nat.eqb_eq in E. subst j.
      rewrite (vdot_unit_zero r (S s) s) by lia.
      rewrite Nat.sub_diag. simpl. ring.
    + apply Nat.eqb_neq in E.
      rewrite (IH (S s) j) by lia.
      replace (j - s)%nat with (S (j - S s)) by lia. simpl. ring.
Qed.

Lemma Forall2_seq_nth (r : list Q) : forall (s : nat) (g : nat -> Q),
  (forall j, (j < length r)%nat -> (g (s + j)%nat == nth j r 0)%Q) ->
  Forall2 Qeq (map g (seq s (length r))) r.
Proof.
  induction r as [|x r IH]; intros s g Hg; [constructor|].
  simpl. constructor.
  - specialize (Hg 0%nat). rewrite Nat.add_0_r in Hg. apply Hg. simpl. lia.
  - apply IH. intros j Hj. specialize (Hg (S j)).
    replace (S s + j)%nat with (s + S j)%nat by lia. apply Hg. simpl. lia.
Qed.

(** A row with a one appended, through the identity and the
    normalization, is the row. *)
Lemma identity_row (r : list Q) :
  Forall2 Qeq
    (normalize_row false
       (map (fun j => Np.vdot (r ++ [1%Q]) (Np.col j (Np.eye (length r + 1))))
            (seq 0 (length r + 1))))
    r.
Proof.
  assert (Hentry : forall j, (j < length r + 1)%nat ->
            (Np.vdot (r ++ [1%Q]) (Np.col j (Np.eye (length r + 1)))
             == nth j (r ++ [1%Q]) 0)%Q).
  { intros j Hj. rewrite (col_eye _ j Hj).
    replace (length r + 1)%nat with (length (r ++ [1%Q]))
      by (rewrite length_app; simpl; lia).
    rewrite (vdot_unit (r ++ [1%Q]) 0 j) by lia. by rewrite Nat.sub_0_r. }
  unfold normalize_row. rewrite app_nil_r.
  replace (length r + 1)%nat with (S (length r)) in * by lia.
  rewrite seq_S, map_app.
  set (f := fun j => Np.vdot (r ++ [1%Q]) (Np.col j (Np.eye (S (length r))))) in *.
  change (map f [(0 + length r)%nat]) with [f (length r)].
  unfold weight. rewrite last_snoc. simpl default.
  rewrite length_app, length_map, length_seq. simpl length.
  replace (length r + 1 - 1)%nat with (length (map f (seq 0 (length r))))
    by (rewrite length_map, length_seq; lia).
  rewrite take_app_length, map_map.
  apply Forall2_seq_nth. intros j Hj. cbv beta.
  change (0 + j)%nat with j. unfold f.
  rewrite (Hentry j) by lia. rewrite (Hentry (length r)) by lia.
  rewrite app_nth1 by lia.
  rewrite app_nth2, Nat.sub_diag by lia. simpl nth. field.
Qed.

End Identity.

(** [X11] Through the identity of size D + 1, points with D columns come
    back as they are: the result has the shape of the input and, entry by
    entry, its numbers. *)
Theorem homogeneous_transform_identity (points : matrix) :
  wf points ->
  exists R,
    homogeneous_transform points (Np.eye (ncols points + 1)) false = Ok R
    /\ nrows R = nrows points
    /\ mat_eq R points.
Proof.
  intros Hwf.
  assert (HM : nrows (Np.eye (ncols points + 1)) = (ncols points + 1)%nat).
  { unfold nrows, Np.eye. simpl. by rewrite length_map, length_seq. }
  rewrite (homogeneous_transform_promote points _ false) by (by rewrite HM).
  destruct (homogeneous_transform_same_dim (promote points)
              (Np.eye (ncols points + 1)) false)
    as (prod & Hdot & _ & _ & _ & Hht); [by rewrite HM|].
  rewrite Hht. simpl ncols.
  replace (ncols points + 1 =? 0)%nat with false
    by (symmetry; apply Nat.eqb_neq; lia).
  eexists. split; [reflexivity|].
  unfold Np.dot in Hdot. simpl ncols in Hdot. rewrite HM, Nat.eqb_refl in Hdot.
  injection Hdot as <-. unfold nrows, mat_eq. simpl.
  split; [by rewrite !length_map|]. split; [lia|].
  rewrite !map_map. apply Forall2_fmap_l, Forall_Forall2_diag.
  eapply Forall_impl; [exact Hwf|]. intros r Hr. simpl in *.
  rewrite <- Hr. apply identity_row.
Qed.

Lemma homogeneous_transform_identity_witness :
  exists R,
    homogeneous_transform (Mat 3 [[1; 2; 3]; [4; 5; 6]]%Q) (Np.eye 4) false = Ok R
    /\ nrows R = 2%nat
    /\ mat_eq R (Mat 3 [[1; 2; 3]; [4; 5; 6]]%Q).
Proof.
  apply (homogeneous_transform_identity (Mat 3 [[1; 2; 3]; [4; 5; 6]]%Q)).
  repeat constructor.
Defined.

(** * Shapes of the arrays the class builds *)

Section Shapes.

Implicit Types (m a b : matrix).

Lemma eye_shape (n : nat) : has_shape n n (Np.eye n).
Proof.
  unfold has_shape, nrows, wf, Np.eye. simpl.
  rewrite length_map, length_seq. repeat split.
  apply Forall_map, Forall_forall. intros i _. simpl.
  by rewrite length_map, length_seq.
Qed.

Lemma transpose_shape m : has_shape (ncols m) (nrows m) (Np.transpose m).
Proof.
  unfold has_shape, nrows, wf, Np.transpose. simpl.
  rewrite length_map, length_seq. repeat split.
  apply Forall_map, Forall_forall. intros j _. simpl.
  unfold Np.col. by rewrite length_map.
Qed.

Lemma chunks_shape (c : nat) : forall (r : nat) (v : list Q),
  length v = (r * c)%nat ->
  length (Np.chunks r c v) = r /\ Forall (fun x => length x = c) (Np.chunks r c v).
Proof.
  induction r as [|r IH]; intros v Hv; simpl; [by split|].
  destruct (IH (drop c v)) as [Hl Hf].
  { rewrite length_drop. lia. }
  split; [by rewrite Hl|]. constructor; [|done].
  rewrite length_take. lia.
Qed.

Lemma reshape_shape (r c : nat) (v : list Q) m :
  Np.reshape r c v = Ok m -> has_shape r c m /\ length v = (r * c)%nat.
Proof.
  unfold Np.reshape. destruct (length v =? r * c)%nat eqn:E; [|done].
  apply Nat.eqb_eq in E. intros [= <-].
  destruct (chunks_shape c r v E) as [Hl Hf]. by repeat split.
Qed.

Lemma Forall_zip_with {A B C : Type} (P : A -> Prop) (Q' : B -> Prop)
    (S' : C -> Prop) (f : A -> B -> C) (l : list A) : forall k : list B,
  Forall P l -> Forall Q' k ->
  (forall x y, P x -> Q' y -> S' (f x y)) ->
  Forall S' (zip_with f l k).
Proof.
  induction l as [|x l IH]; intros k Hl Hk Hf; [constructor|].
  destruct k as [|y k]; [constructor|].
  apply Forall_cons_1 in Hl as [Hx Hl]. apply Forall_cons_1 in Hk as [Hy Hk].
  simpl. constructor; [by apply Hf|by apply IH].
Qed.

Lemma assign_block_shape (r c R C : nat) m b :
  has_shape R C m -> has_shape r c b -> (c <= C)%nat ->
  has_shape R C (Np.assign_block r c m b).
Proof.
  unfold has_shape, nrows, wf, Np.assign_block.
  intros (Hr & Hc & Hwf) (Hbr & Hbc & Hbwf) Hle. simpl.
  rewrite Hc in *. rewrite Hbc in *.
  rewrite length_app, length_zip_with, length_take, length_drop.
  split; [lia|]. split; [done|].
  apply Forall_app. split; [|by apply Forall_drop].
  apply (Forall_zip_with (fun x => length x = C) (fun y => length y = c));
    [by apply Forall_take|done|].
  intros x y Hx Hy. rewrite length_app, length_drop. lia.
Qed.

Lemma assign_col_shape (r j R C : nat) m (v : list Q) m' :
  Np.assign_col r j m v = Ok m' -> has_shape R C m -> has_shape R C m'.
Proof.
  unfold has_shape, nrows, wf, Np.assign_col.
  intros H (Hr & Hc & Hwf). rewrite Hc in *.
  destruct (length v =? r)%nat eqn:E1.
  - apply Nat.eqb_eq in E1. injection H as <-. simpl.
    rewrite length_app, length_zip_with, length_take, length_drop.
    split; [lia|]. split; [done|].
    apply Forall_app. split; [|by apply Forall_drop].
    apply (Forall_zip_with (fun x => length x = C) (fun _ => True));
      [by apply Forall_take|by apply Forall_true|].
    intros x y Hx _. by rewrite length_insert.
  - destruct (length v =? 1)%nat; [|done]. injection H as <-. simpl.
    rewrite length_app, length_map, length_take, length_drop.
    split; [lia|]. split; [done|].
    apply Forall_app. split; [|by apply Forall_drop].
    apply Forall_map. eapply Forall_impl; [by apply Forall_take|].
    intros x Hx. simpl. by rewrite length_insert.
Qed.

Lemma dot_shape a b p :
  Np.dot a b = Ok p -> has_shape (nrows a) (ncols b) p /\ ncols a = nrows b.
Proof.
  unfold Np.dot. destruct (ncols a =? nrows b)%nat eqn:E; [|done].
  apply Nat.eqb_eq in E. intros [= <-].
  unfold has_shape, nrows, wf. simpl. rewrite length_map. repeat split; try done.
  apply Forall_map, Forall_forall. intros x _. simpl.
  by rewrite length_map, length_seq.
Qed.

Lemma dot_ok (R C C' : nat) a b :
  has_shape R C a -> has_shape C C' b ->
  exists p, Np.dot a b = Ok p /\ has_shape R C' p.
Proof.
  intros (Har & Hac & _) (Hbr & Hbc & _).
  destruct (dot_rows a b) as (p & Hp & _); [congruence|].
  exists p. split; [done|].
  destruct (dot_shape a b p Hp) as [Hs _]. by rewrite Har, Hbc in Hs.
Qed.

Lemma reshape_value_shape (v : calib_value) (r c : nat) m :
  reshape_value v r c = Ok m ->
  has_shape r c m /\ exists vec, v = Numeric vec /\ length vec = (r * c)%nat.
Proof.
  destruct v as [vec|t]; simpl; [|done]. intros H.
  destruct (reshape_shape r c vec m H) as [Hs Hl]. split; [done|]. by exists vec.
Qed.

Lemma rows3_shape (c : nat) m (x y z : list Q) :
  rows3 m = Ok (x, y, z) -> wf m -> ncols m = c ->
  length x = c /\ length y = c /\ length z = c.
Proof.
  unfold rows3, wf. destruct (mrows m) as [|x' [|y' [|z' [|? ?]]]]; try done.
  intros [= <- <- <-] Hwf <-.
  apply Forall_cons_1 in Hwf as [? Hwf]. apply Forall_cons_1 in Hwf as [? Hwf].
  by apply Forall_cons_1 in Hwf as [? _].
Qed.

End Shapes.

Lemma bind_ok {A B : Type} (r : result A) (k : A -> result B) (b : B) :
  r ≫= k = Ok b -> exists a, r = Ok a /\ k a = Ok b.
Proof. destruct r as [a|e]; simpl; [by eauto|done]. Qed.

Lemma bind_is_ok {A B : Type} (r : result A) (k : A -> result B) :
  is_ok (r ≫= k) <-> exists a, r = Ok a /\ is_ok (k a).
Proof.
  unfold is_ok. destruct r as [a|e]; simpl.
  - split; [by eauto|]. by intros (a' & [= <-] & ?).
  - split; [by intros [? ?]|]. by intros (a' & ? & _).
Qed.

Ltac bind_inv H :=
  repeat (cbv beta iota zeta in H;
          lazymatch type of H with
          | mbind _ _ = Ok _ =>
              let x := fresh "x" in
              let Hx := fresh "Hx" in
              apply bind_ok in H as (x & Hx & H)
          end);
  cbv beta iota zeta in H.

Section AccessorShapes.

Variable self : Calib.

Lemma padded_transpose_shape (Tr : matrix) :
  has_shape 3 4 Tr ->
  has_shape 4 4 (Np.assign_block 4 3 (Np.eye 4) (Np.transpose Tr)).
Proof.
  intros (Hr & Hc & _).
  apply (assign_block_shape 4 3 4 4); [apply eye_shape| |lia].
  rewrite <- Hr at 2. rewrite <- Hc at 1. apply transpose_shape.
Qed.

Lemma padded_block_shape (R : matrix) :
  has_shape 3 3 R -> has_shape 4 4 (Np.assign_block 3 3 (Np.eye 4) R).
Proof.
  intros HR. apply (assign_block_shape 3 3 4 4); [apply eye_shape|done|lia].
Qed.

Lemma transposed_square (n : nat) (m : matrix) :
  has_shape n n m -> has_shape n n (Np.transpose m).
Proof.
  intros (Hr & Hc & _). rewrite <- Hr at 2. rewrite <- Hc at 1.
  apply transpose_shape.
Qed.

Lemma get_imu2velo_shape (T : matrix) :
  get_imu2velo self = Ok T -> has_shape 4 4 T.
Proof.
  unfold get_imu2velo. intros H. bind_inv H.
  injection H as <-. apply transposed_square.
  destruct x1 as [vec|t]; [|done].
  apply (assign_col_shape 3 3 4 4 _ vec _ Hx2).
  apply padded_block_shape. by apply (reshape_value_shape x 3 3).
Qed.

Lemma get_velo2rect_shape (T : matrix) :
  get_velo2rect self = Ok T -> has_shape 4 4 T.
Proof.
  unfold get_velo2rect. intros H. bind_inv H.
  injection H as <-. apply transposed_square.
  destruct (dot_shape _ _ _ Hx3) as [Hs _].
  destruct (padded_block_shape x2) as (Hr & _); [by apply (reshape_value_shape x1 3 3)|].
  destruct (padded_transpose_shape x0) as (_ & Hc & _);
    [by apply (reshape_value_shape x 3 4)|].
  by rewrite Hr, Hc in Hs.
Qed.

Lemma get_velo2road_shape (T : matrix) :
  get_velo2road self = Ok T -> has_shape 4 4 T.
Proof.
  unfold get_velo2road. intros H. bind_inv H.
  injection H as <-. apply transposed_square.
  destruct (dot_shape _ _ _ Hx3) as [Hs _].
  destruct (padded_transpose_shape x2) as (Hr & _);
    [by apply (reshape_value_shape x1 3 4)|].
  destruct (padded_transpose_shape x0) as (_ & Hc & _);
    [by apply (reshape_value_shape x 3 4)|].
  by rewrite Hr, Hc in Hs.
Qed.

Lemma get_velo2cam_shape (T : matrix) :
  get_velo2cam self = Ok T -> has_shape 3 4 T.
Proof.
  unfold get_velo2cam. intros H. bind_inv H.
  by apply (reshape_value_shape x 3 4).
Qed.

Lemma get_cam2road_shape (T : matrix) :
  get_cam2road self = Ok T -> has_shape 3 4 T.
Proof.
  unfold get_cam2road. intros H. bind_inv H.
  by apply (reshape_value_shape x 3 4).
Qed.

Lemma get_rect2disp_shape (T : matrix) :
  get_rect2disp self = Ok T -> has_shape 4 4 T.
Proof.
  unfold get_rect2disp. intros H. bind_inv H.
  destruct (if negb x then (0%Z, 1%Z) else (2%Z, 3%Z)) as [cam0 cam1].
  bind_inv H. destruct x4 as [[P0 P1] P2]. cbv beta iota zeta in H.
  destruct (rows3 x3) as [[[Q0 Q1] Q2]|e]; simpl in H; [|done].
  injection H as <-.
  unfold disp_stack.
  exact (transpose_shape (Mat 4 [P0; P1; zip_with Qminus P0 Q0; P2])).
Qed.

Lemma get_proj_shape (cam_idx : Z) (T : matrix) :
  get_proj self cam_idx = Ok T -> has_shape 4 3 T.
Proof.
  unfold get_proj. destruct (_ || _)%bool; [|done]. intros H. bind_inv H.
  injection H as <-.
  destruct (reshape_value_shape x 3 4 x0 Hx0) as [(Hr & Hc & _) _].
  rewrite <- Hr at 2. rewrite <- Hc at 1. apply transpose_shape.
Qed.

Lemma get_imu2rect_shape (T : matrix) :
  get_imu2rect self = Ok T -> has_shape 4 4 T.
Proof.
  unfold get_imu2rect. intros H. bind_inv H.
  destruct (dot_shape _ _ _ H) as [Hs _].
  destruct (get_imu2velo_shape x Hx) as (Hr & _).
  destruct (get_velo2rect_shape x0 Hx0) as (_ & Hc & _).
  by rewrite Hr, Hc in Hs.
Qed.

Lemma get_velo2depth_shape (cam_idx : Z) (T : matrix) :
  get_velo2depth self cam_idx = Ok T -> has_shape 4 3 T.
Proof.
  unfold get_velo2depth. intros H. bind_inv H.
  destruct (dot_shape _ _ _ H) as [Hs _].
  destruct (get_velo2rect_shape x Hx) as (Hr & _).
  destruct (get_proj_shape cam_idx x0 Hx0) as (_ & Hc & _).
  by rewrite Hr, Hc in Hs.
Qed.

Lemma get_velo2disp_shape (T : matrix) :
  get_velo2disp self = Ok T -> has_shape 4 4 T.
Proof.
  unfold get_velo2disp. intros H. bind_inv H.
  destruct (dot_shape _ _ _ H) as [Hs _].
  destruct (get_velo2rect_shape x Hx) as (Hr & _).
  destruct (get_rect2disp_shape x0 Hx0) as (_ & Hc & _).
  by rewrite Hr, Hc in Hs.
Qed.

Lemma get_imu2disp_shape (T : matrix) :
  get_imu2disp self = Ok T -> has_shape 4 4 T.
Proof.
  unfold get_imu2disp. intros H. bind_inv H.
  destruct (dot_shape _ _ _ H) as [Hs _].
  destruct (get_imu2rect_shape x Hx) as (Hr & _).
  destruct (get_rect2disp_shape x0 Hx0) as (_ & Hc & _).
  by rewrite Hr, Hc in Hs.
Qed.

End AccessorShapes.

(** [X12] Whatever the calibration holds, an accessor that returns gives
    an array of its fixed shape: 4 x 4 for [get_velo2rect],
    [get_velo2road], [get_rect2disp] and [get_velo2disp], 3 x 4 for
    [get_velo2cam] and [get_cam2road], 4 x 3 for [get_proj] and
    [get_velo2depth], and, when [Tr_imu_to_velo] is not stored as a text,
    4 x 4 for [get_imu2velo], [get_imu2rect] and [get_imu2disp]. *)
Theorem accessor_shapes (self : Calib) (cam_idx : Z) (T : matrix) :
  (not_text self "Tr_imu_to_velo" -> get_imu2velo self = Ok T -> has_shape 4 4 T)
  /\ (get_velo2rect self = Ok T -> has_shape 4 4 T)
  /\ (get_velo2road self = Ok T -> has_shape 4 4 T)
  /\ (get_rect2disp self = Ok T -> has_shape 4 4 T)
  /\ (not_text self "Tr_imu_to_velo" -> get_imu2rect self = Ok T -> has_shape 4 4 T)
  /\ (get_velo2disp self = Ok T -> has_shape 4 4 T)
  /\ (not_text self "Tr_imu_to_velo" -> get_imu2disp self = Ok T -> has_shape 4 4 T)
  /\ (get_velo2cam self = Ok T -> has_shape 3 4 T)
  /\ (get_cam2road self = Ok T -> has_shape 3 4 T)
  /\ (get_proj self cam_idx = Ok T -> has_shape 4 3 T)
  /\ (get_velo2depth self cam_idx = Ok T -> has_shape 4 3 T).
Proof.
  repeat match goal with |- _ /\ _ => split end;
    try match goal with |- not_text _ _ -> _ => intros _ end;
    first [ apply get_imu2velo_shape | apply get_velo2rect_shape
          | apply get_velo2road_shape | apply get_rect2disp_shape
          | apply get_imu2rect_shape | apply get_velo2disp_shape
          | apply get_imu2disp_shape | apply get_velo2cam_shape
          | apply get_cam2road_shape | apply get_proj_shape
          | apply get_velo2depth_shape ].
Qed.

Lemma accessor_shapes_witness :
  match get_imu2rect sample_calib with
  | Ok T => has_shape 4 4 T
  | Raise _ => False
  end.
Proof.
  destruct (get_imu2rect sample_calib) as [T|e] eqn:E.
  - apply (proj1 (proj2 (proj2 (proj2 (proj2
             (accessor_shapes sample_calib 2%Z T)))))); [|exact E].
    intros t Ht. vm_compute in Ht. discriminate Ht.
  - vm_compute in E. discriminate E.
Defined.

(** [X13] A composed accessor fails only where one of its factors fails:
    the product it ends with never raises, the shapes of the factors
    always agreeing.  For the two that go through [get_imu2velo] this is
    stated for a [Tr_imu_to_velo] that is not stored as a text. *)
Theorem composed_accessors_ok (self : Calib) (cam_idx : Z) :
  (not_text self "Tr_imu_to_velo" ->
   (is_ok (get_imu2rect self)
    <-> is_ok (get_imu2velo self) /\ is_ok (get_velo2rect self)))
  /\ (is_ok (get_velo2depth self cam_idx)
      <-> is_ok (get_velo2rect self) /\ is_ok (get_proj self cam_idx))
  /\ (is_ok (get_velo2disp self)
      <-> is_ok (get_velo2rect self) /\ is_ok (get_rect2disp self))
  /\ (not_text self "Tr_imu_to_velo" ->
      (is_ok (get_imu2disp self)
       <-> is_ok (get_imu2rect self) /\ is_ok (get_rect2disp self))).
Proof.
  assert (Hcomp : forall (C' : nat) (fa fb : result matrix),
            (forall A, fa = Ok A -> has_shape 4 4 A) ->
            (forall B, fb = Ok B -> has_shape 4 C' B) ->
            is_ok (a ← fa; b ← fb; Np.dot a b) <-> is_ok fa /\ is_ok fb).
  { intros C' fa fb Ha Hb. rewrite bind_is_ok. split.
    - intros (A & -> & H). apply bind_is_ok in H as (B & -> & _).
      split; [by exists A|by exists B].
    - intros [[A ->] [B ->]]. exists A. split; [done|].
      apply bind_is_ok. exists B. split; [done|].
      destruct (dot_ok 4 4 C' A B) as (p & Hp & _); [by apply Ha|by apply Hb|].
      by exists p. }
  split; [|split; [|split]].
  - intros _.
    apply (Hcomp 4%nat); [apply get_imu2velo_shape|apply get_velo2rect_shape].
  - apply (Hcomp 3%nat); [apply get_velo2rect_shape|apply get_proj_shape].
  - apply (Hcomp 4%nat); [apply get_velo2rect_shape|apply get_rect2disp_shape].
  - intros _.
    apply (Hcomp 4%nat); [apply get_imu2rect_shape|apply get_rect2disp_shape].
Qed.

Lemma composed_accessors_ok_witness : is_ok (get_imu2rect sample_calib).
Proof.
  apply (proj1 (composed_accessors_ok sample_calib 0%Z)).
  - intros t Ht. vm_compute in Ht. discriminate Ht.
  - split; eexists; vm_compute; reflexivity.
Defined.

Section PointWrappers.

Lemma homogeneous_transform_shape
    (M N : nat) (points transform : matrix) (keep_last : bool) :
  has_shape M N transform -> (1 <= N)%nat ->
  ncols points = M \/ (ncols points + 1)%nat = M ->
  exists R,
    homogeneous_transform points transform keep_last = Ok R
    /\ has_shape (nrows points) (if keep_last then N else (N - 1)%nat) R.
Proof.
  intros (Hr & Hc & _) HN HD.
  assert (Hsame : forall p, ncols p = M -> nrows p = nrows points ->
            exists R, homogeneous_transform p transform keep_last = Ok R
                      /\ has_shape (nrows points)
                           (if keep_last then N else (N - 1)%nat) R).
  { intros p Hp Hn.
    destruct (homogeneous_transform_same_dim p transform keep_last)
      as (prod & _ & Hpc & Hpr & Hwf & ->); [congruence|].
    rewrite Hc. replace (N =? 0)%nat with false
      by (symmetry; apply Nat.eqb_neq; lia).
    eexists. split; [reflexivity|].
    unfold has_shape, nrows, wf in *. simpl. rewrite length_map.
    split; [congruence|]. split; [done|].
    apply Forall_map. eapply Forall_impl; [exact Hwf|]. intros r Hr'. simpl in *.
    apply normalize_row_length; lia. }
  destruct HD as [HD|HD].
  - by apply Hsame.
  - rewrite (homogeneous_transform_promote points transform keep_last)
      by congruence.
    apply Hsame; [simpl; lia|].
    unfold promote, nrows. simpl. by rewrite length_map.
Qed.

End PointWrappers.

(** [X14] Once their transform is available, the wrappers take points
    with three columns, or four, and give one row for each point:
    three columns from [velo2rect], [imu2rect] and [velo2depth], two from
    [velo2img]; points of any other width raise [ValueError].  For
    [imu2rect] this is stated for a [Tr_imu_to_velo] that is not stored as
    a text. *)
Theorem point_wrappers_shape (self : Calib) (cam_idx : Z) (points : matrix) :
  (is_ok (get_velo2rect self) ->
     (ncols points = 3%nat \/ ncols points = 4%nat ->
      exists R, velo2rect self points = Ok R /\ has_shape (nrows points) 3 R)
     /\ (ncols points <> 3%nat -> ncols points <> 4%nat ->
         velo2rect self points = Raise ValueError))
  /\ (not_text self "Tr_imu_to_velo" -> is_ok (get_imu2rect self) ->
      (ncols points = 3%nat \/ ncols points = 4%nat ->
       exists R, imu2rect self points = Ok R /\ has_shape (nrows points) 3 R)
      /\ (ncols points <> 3%nat -> ncols points <> 4%nat ->
          imu2rect self points = Raise ValueError))
  /\ (is_ok (get_velo2depth self cam_idx) ->
      (ncols points = 3%nat \/ ncols points = 4%nat ->
       (exists R, velo2depth self points cam_idx = Ok R
                  /\ has_shape (nrows points) 3 R)
       /\ (exists R, velo2img self points cam_idx = Ok R
                     /\ has_shape (nrows points) 2 R))
      /\ (ncols points <> 3%nat -> ncols points <> 4%nat ->
          velo2depth self points cam_idx = Raise ValueError
          /\ velo2img self points cam_idx = Raise ValueError)).
Proof.
  assert (Hgen : forall (N : nat) (T : matrix) (keep_last : bool),
            has_shape 4 N T -> (1 <= N)%nat ->
            (ncols points = 3%nat \/ ncols points = 4%nat ->
             exists R, homogeneous_transform points T keep_last = Ok R
                       /\ has_shape (nrows points)
                            (if keep_last then N else (N - 1)%nat) R)
            /\ (ncols points <> 3%nat -> ncols points <> 4%nat ->
                homogeneous_transform points T keep_last = Raise ValueError)).
  { intros N T kl HT HN. split.
    - intros HD. apply (homogeneous_transform_shape 4 N); [done|done|lia].
    - intros H3 H4. destruct HT as (Hr & _).
      apply homogeneous_transform_mismatch; lia. }
  split; [|split].
  - intros [T HT]. unfold velo2rect. rewrite HT. simpl.
    apply (Hgen 4%nat T false); [by apply (get_velo2rect_shape self)|lia].
  - intros _ [T HT]. unfold imu2rect. rewrite HT. simpl.
    apply (Hgen 4%nat T false); [by apply (get_imu2rect_shape self)|lia].
  - intros [T HT]. unfold velo2depth, velo2img. rewrite HT. simpl.
    pose proof (get_velo2depth_shape self cam_idx T HT) as Hs.
    destruct (Hgen 3%nat T true Hs ltac:(lia)) as [Ht1 Ht2].
    destruct (Hgen 3%nat T false Hs ltac:(lia)) as [Hf1 Hf2].
    split; [intros HD; split; [by apply Ht1|by apply Hf1]|].
    intros H3 H4. split; [by apply Ht2|by apply Hf2].
Qed.

Lemma point_wrappers_shape_witness :
  exists R, velo2rect sample_calib (Mat 3 [[1; 2; 3]; [4; 5; 6]]%Q) = Ok R
            /\ has_shape 2 3 R.
Proof.
  apply (proj1 (proj1 (point_wrappers_shape sample_calib 0%Z
                         (Mat 3 [[1; 2; 3]; [4; 5; 6]]%Q))
                  ltac:(eexists; vm_compute; reflexivity))).
  left. reflexivity.
Defined.

(** * Points as columns *)

Section Columns.

Lemma with_ones_row_ok (points : matrix) :
  exists pnt,
    with_ones_row points = Ok pnt
    /\ nrows pnt = (nrows points + 1)%nat
    /\ ncols pnt = ncols points.
Proof.
  unfold with_ones_row, Np.vstack. simpl. rewrite Nat.eqb_refl.
  eexists. split; [reflexivity|]. unfold nrows. simpl.
  by rewrite length_app.
Qed.

Lemma dot_mismatch (a b : matrix) :
  ncols a <> nrows b -> Np.dot a b = Raise ValueError.
Proof.
  intros H. unfold Np.dot.
  by replace (ncols a =? nrows b)%nat with false by (symmetry; by apply Nat.eqb_neq).
Qed.

(** A 3 x 4 transform applied on the left of columns with a row of ones
    beneath them. *)
Lemma left_multiply (RT points : matrix) :
  has_shape 3 4 RT ->
  (nrows points = 3%nat ->
   exists pnt R, with_ones_row points = Ok pnt /\ Np.dot RT pnt = Ok R
                 /\ has_shape 3 (ncols points) R)
  /\ (nrows points <> 3%nat ->
      exists pnt, with_ones_row points = Ok pnt
                  /\ Np.dot RT pnt = Raise ValueError).
Proof.
  intros (Hr & Hc & _).
  destruct (with_ones_row_ok points) as (pnt & Hp & Hpr & Hpc). split.
  - intros H3. destruct (dot_rows RT pnt) as (R & HR & _); [lia|].
    exists pnt, R. repeat split; try done;
      destruct (dot_shape RT pnt R HR) as [(H1 & H2 & H3') _]; congruence.
  - intros H3. exists pnt. split; [done|]. apply dot_mismatch. lia.
Qed.

End Columns.

(** [X15] The column wrappers.  With [Tr_velo_to_cam] readable,
    [velo2cams] takes points as rows of three numbers and gives them as
    three rows, one column for each point; [cams2road], with
    [Tr_cam_to_road] readable, takes three rows and gives three rows; and
    [velo2road] chains the two.  Any other width (or height, for
    [cams2road]) raises [ValueError]. *)
Theorem column_wrappers_shape (self : Calib) (points : matrix) :
  (is_ok (get_velo2cam self) ->
     (ncols points = 3%nat ->
      exists R, velo2cams self points = Ok R /\ has_shape 3 (nrows points) R)
     /\ (ncols points <> 3%nat -> velo2cams self points = Raise ValueError))
  /\ (is_ok (get_cam2road self) ->
      (nrows points = 3%nat ->
       exists R, cams2road self points = Ok R /\ has_shape 3 (ncols points) R)
      /\ (nrows points <> 3%nat -> cams2road self points = Raise ValueError))
  /\ (is_ok (get_velo2cam self) -> is_ok (get_cam2road self) ->
      (ncols points = 3%nat ->
       exists R, velo2road self points = Ok R /\ has_shape 3 (nrows points) R)
      /\ (ncols points <> 3%nat -> velo2road self points = Raise ValueError)).
Proof.
  assert (Hcams : is_ok (get_velo2cam self) ->
     (ncols points = 3%nat ->
      exists R, velo2cams self points = Ok R /\ has_shape 3 (nrows points) R)
     /\ (ncols points <> 3%nat -> velo2cams self points = Raise ValueError)).
  { intros [RT HRT]. unfold velo2cams. rewrite HRT. simpl.
    pose proof (get_velo2cam_shape self RT HRT) as Hs.
    destruct (transpose_shape points) as (Htr & Htc & _).
    destruct (left_multiply RT (Np.transpose points) Hs) as [H1 H2]. split.
    - intros H3. destruct H1 as (pnt & R & -> & HR & HRs); [congruence|].
      simpl. exists R. split; [done|]. by rewrite <- Htc.
    - intros H3. destruct H2 as (pnt & -> & HR); [congruence|]. done. }
  assert (Hroad : forall cols : matrix, is_ok (get_cam2road self) ->
     (nrows cols = 3%nat ->
      exists R, cams2road self cols = Ok R /\ has_shape 3 (ncols cols) R)
     /\ (nrows cols <> 3%nat -> cams2road self cols = Raise ValueError)).
  { intros cols [RT HRT]. unfold cams2road. rewrite HRT. simpl.
    pose proof (get_cam2road_shape self RT HRT) as Hs.
    destruct (left_multiply RT cols Hs) as [H1 H2]. split.
    - intros H3. destruct (H1 H3) as (pnt & R & -> & HR & HRs).
      simpl. by exists R.
    - intros H3. destruct (H2 H3) as (pnt & -> & HR). done. }
  split; [exact Hcams|]. split; [apply Hroad|].
  intros Hv Hc. destruct (Hcams Hv) as [H1 H2]. unfold velo2road. split.
  - intros H3. destruct (H1 H3) as (cams & -> & Hr & Hcc & _). simpl.
    destruct (Hroad cams Hc) as [H4 _]. rewrite <- Hcc. by apply H4.
  - intros H3. by rewrite (H2 H3).
Qed.

Lemma column_wrappers_shape_witness :
  exists R, velo2road sample_calib (Mat 3 [[1; 2; 3]; [4; 5; 6]]%Q) = Ok R
            /\ has_shape 3 2 R.
Proof.
  apply (proj1 (proj2 (proj2 (column_wrappers_shape sample_calib
                                (Mat 3 [[1; 2; 3]; [4; 5; 6]]%Q)))
                  ltac:(eexists; vm_compute; reflexivity)
                  ltac:(eexists; vm_compute; reflexivity))).
  reflexivity.
Defined.

(** * Reading the fields *)

Section Fields.

Variable self : Calib.

Lemma field_ok (key : string) (v : calib_value) :
  field self key = Ok v <-> data self !! key = Some v.
Proof.
  unfold field. destruct (data self !! key) as [v'|]; split; congruence.
Qed.

Lemma chunks_entry (c : nat) : forall (r : nat) (a : list Q) (i j : nat),
  (i < r)%nat -> (j < c)%nat ->
  nth j (nth i (Np.chunks r c a) []) 0%Q = nth (c * i + j) a 0%Q.
Proof.
  induction r as [|r IH]; intros a i j Hi Hj; [lia|].
  simpl. destruct i as [|i].
  - rewrite Nat.mul_0_r. simpl.
    rewrite !nth_lookup, lookup_take_lt by done. reflexivity.
  - rewrite (IH (drop c a) i j) by lia.
    rewrite !nth_lookup, lookup_drop. do 2 f_equal. lia.
Qed.

Lemma reshape_cases (key : string) (r c : nat) :
  (data self !! key = None ->
   (v ← field self key; reshape_value v r c) = Raise (KeyError key))
  /\ (forall t, data self !! key = Some (Text t) ->
        (v ← field self key; reshape_value v r c)
        = Raise (AttributeError "reshape"))
  /\ (forall a, data self !! key = Some (Numeric a) ->
        length a <> (r * c)%nat ->
        (v ← field self key; reshape_value v r c) = Raise ValueError)
  /\ (forall a, data self !! key = Some (Numeric a) ->
        length a = (r * c)%nat ->
        (v ← field self key; reshape_value v r c)
        = Ok (Mat c (Np.chunks r c a))).
Proof.
  unfold field. repeat match goal with |- _ /\ _ => split end.
  - by intros ->.
  - by intros t ->.
  - intros a -> Hl. simpl. unfold Np.reshape.
    by replace (length a =? r * c)%nat with false
      by (symmetry; by apply Nat.eqb_neq).
  - intros a -> Hl. simpl. by apply reshape_ok.
Qed.

End Fields.

(** [X16] [get_velo2cam] and [get_cam2road] read one field each: a
    missing field raises [KeyError], a text [AttributeError], a vector
    that has not twelve numbers [ValueError]; twelve numbers give the
    3 x 4 array whose entry (i, j) is number 4 i + j of the vector, and
    [get_proj] gives, for a camera from 0 to 3, the transpose of such an
    array. *)
Theorem reshaped_fields (self : Calib) :
  (data self !! "Tr_velo_to_cam" = None ->
     get_velo2cam self = Raise (KeyError "Tr_velo_to_cam"))
  /\ (data self !! "Tr_cam_to_road" = None ->
      get_cam2road self = Raise (KeyError "Tr_cam_to_road"))
  /\ (forall t, data self !! "Tr_velo_to_cam" = Some (Text t) ->
        get_velo2cam self = Raise (AttributeError "reshape"))
  /\ (forall t, data self !! "Tr_cam_to_road" = Some (Text t) ->
        get_cam2road self = Raise (AttributeError "reshape"))
  /\ (forall a, data self !! "Tr_velo_to_cam" = Some (Numeric a) ->
        length a <> 12%nat -> get_velo2cam self = Raise ValueError)
  /\ (forall a, data self !! "Tr_cam_to_road" = Some (Numeric a) ->
        length a <> 12%nat -> get_cam2road self = Raise ValueError)
  /\ (forall a, data self !! "Tr_velo_to_cam" = Some (Numeric a) ->
        length a = 12%nat ->
        exists T, get_velo2cam self = Ok T
                  /\ forall i j : nat, (i < 3)%nat -> (j < 4)%nat ->
                       nth j (nth i (mrows T) []) 0%Q = nth (4 * i + j) a 0%Q)
  /\ (forall a, data self !! "Tr_cam_to_road" = Some (Numeric a) ->
        length a = 12%nat ->
        exists T, get_cam2road self = Ok T
                  /\ forall i j : nat, (i < 3)%nat -> (j < 4)%nat ->
                       nth j (nth i (mrows T) []) 0%Q = nth (4 * i + j) a 0%Q)
  /\ (forall (cam_idx : Z) a,
        (0 <= cam_idx <= 3)%Z ->
        data self !! proj_key cam_idx = Some (Numeric a) ->
        length a = 12%nat ->
        exists T, get_proj self cam_idx = Ok T
                  /\ forall i j : nat, (i < 3)%nat -> (j < 4)%nat ->
                       nth i (nth j (mrows T) []) 0%Q = nth (4 * i + j) a 0%Q).
Proof.
  destruct (reshape_cases self "Tr_velo_to_cam" 3 4) as (V1 & V2 & V3 & V4).
  destruct (reshape_cases self "Tr_cam_to_road" 3 4) as (C1 & C2 & C3 & C4).
  unfold get_velo2cam, get_cam2road.
  repeat match goal with |- _ /\ _ => split end;
    try assumption.
  - intros a Ha Hl. rewrite (V4 a Ha Hl). eexists. split; [reflexivity|].
    intros i j Hi Hj. cbn [mrows]. by apply chunks_entry.
  - intros a Ha Hl. rewrite (C4 a Ha Hl). eexists. split; [reflexivity|].
    intros i j Hi Hj. cbn [mrows]. by apply chunks_entry.
  - intros cam_idx a Hcam Ha Hl.
    assert (Hp : get_proj self cam_idx
                 = Ok (Np.transpose (Mat 4 (Np.chunks 3 4 a)))).
    { unfold get_proj.
      replace ((cam_idx =? 0) || (cam_idx =? 1) || (cam_idx =? 2) || (cam_idx =? 3))%Z
        with true by (symmetry; rewrite !orb_true_iff, !Z.eqb_eq; lia).
      rewrite (field_present _ _ _ Ha). simpl.
      by rewrite (reshape_ok 3 4 a Hl). }
    rewrite Hp. eexists. split; [reflexivity|].
    intros i j Hi Hj. rewrite <- (chunks_entry 4 3 a i j Hi Hj).
    destruct j as [|[|[|[|j]]]]; [| | |  |lia];
      destruct i as [|[|[|i]]]; try lia; reflexivity.
Qed.

Lemma reshaped_fields_witness :
  exists T, get_velo2cam sample_calib = Ok T
            /\ forall i j : nat, (i < 3)%nat -> (j < 4)%nat ->
                 nth j (nth i (mrows T) []) 0%Q
                 = nth (4 * i + j) [0; -1; 0; 0; 0; 0; -1; 0; 1; 0; 0; 0]%Q 0%Q.
Proof.
  apply (proj1 (proj2 (proj2 (proj2 (proj2 (proj2 (proj2
           (reshaped_fields sample_calib)))))))
           [0; -1; 0; 0; 0; 0; -1; 0; 1; 0; 0; 0]%Q);
    reflexivity.
Defined.

Lemma reshape_value_not_assertion (v : calib_value) (r c : nat) :
  reshape_value v r c <> Raise AssertionError.
Proof.
  destruct v as [a|t]; simpl; [|done]. unfold Np.reshape.
  by destruct (length a =? r * c)%nat.
Qed.

(** [X17] [get_proj] raises [AssertionError] exactly for a camera index
    outside 0..3, before it reads anything; [get_velo2depth] and the two
    projecting wrappers raise it for such an index only once
    [get_velo2rect] has returned, whose failure comes first. *)
Theorem cam_idx_assertion (self : Calib) (cam_idx : Z) (points : matrix) :
  (get_proj self cam_idx = Raise AssertionError
   <-> (cam_idx < 0 \/ 3 < cam_idx)%Z)
  /\ ((cam_idx < 0 \/ 3 < cam_idx)%Z ->
      is_ok (get_velo2rect self) ->
      get_velo2depth self cam_idx = Raise AssertionError
      /\ velo2depth self points cam_idx = Raise AssertionError
      /\ velo2img self points cam_idx = Raise AssertionError)
  /\ (forall e, get_velo2rect self = Raise e ->
      get_velo2depth self cam_idx = Raise e
      /\ velo2depth self points cam_idx = Raise e
      /\ velo2img self points cam_idx = Raise e).
Proof.
  assert (Hproj : get_proj self cam_idx = Raise AssertionError
                  <-> (cam_idx < 0 \/ 3 < cam_idx)%Z).
  { unfold get_proj.
    destruct ((cam_idx =? 0) || (cam_idx =? 1) || (cam_idx =? 2) || (cam_idx =? 3))%Z
      eqn:E.
    - rewrite !orb_true_iff, !Z.eqb_eq in E. split; [|lia].
      unfold field. destruct (data self !! proj_key cam_idx) as [v|]; simpl; [|done].
      pose proof (reshape_value_not_assertion v 3 4) as Hv.
      destruct (reshape_value v 3 4); simpl; [done|]. intros H. by destruct Hv.
    - rewrite !orb_false_iff, !Z.eqb_neq in E. split; [lia|done]. }
  split; [exact Hproj|]. split.
  - intros Hbad [T HT]. apply Hproj in Hbad.
    unfold velo2depth, velo2img, get_velo2depth. by rewrite HT, Hbad.
  - intros e He. unfold velo2depth, velo2img, get_velo2depth. by rewrite He.
Qed.

Lemma cam_idx_assertion_witness :
  get_velo2depth sample_calib 4 = Raise AssertionError.
Proof.
  apply (proj1 (proj2 (cam_idx_assertion sample_calib 4%Z (Mat 3 [])))).
  - lia.
  - eexists. vm_compute. reflexivity.
Defined.

(** [X18] On an instance that [Calib] builds, nothing that goes through
    the disparity transform returns: [get_velo2disp], [get_imu2disp],
    [get_disp2imu] and [velo2disp] all fail, and with [AttributeError] on
    [color] as soon as the transforms computed before it are available. *)
Theorem disparity_accessors_never_return
    (linalg_inv : matrix -> result matrix)
    (fs : filesystem) (path : string) (color : bool) (self : Calib)
    (points : matrix) :
  Calib_init fs path color = Ok self ->
  (~ is_ok (get_velo2disp self) /\ ~ is_ok (get_imu2disp self)
   /\ ~ is_ok (get_disp2imu linalg_inv self) /\ ~ is_ok (velo2disp self points))
  /\ (is_ok (get_velo2rect self) ->
      get_velo2disp self = Raise (AttributeError "color")
      /\ velo2disp self points = Raise (AttributeError "color"))
  /\ (is_ok (get_imu2rect self) ->
      get_imu2disp self = Raise (AttributeError "color")
      /\ get_disp2imu linalg_inv self = Raise (AttributeError "color")).
Proof.
  intros H. destruct (Calib_init_inv _ _ _ _ H) as (d & _ & ->).
  set (self := MkCalib path d None).
  pose proof (get_rect2disp_no_color self eq_refl) as Hc.
  unfold velo2disp, get_disp2imu, get_imu2disp, get_velo2disp.
  split; [|split].
  - rewrite Hc. repeat split; intros [T HT];
      destruct (get_velo2rect self), (get_imu2rect self); simpl in HT; done.
  - intros [T ->]. by rewrite Hc.
  - intros [T ->]. by rewrite Hc.
Qed.

Lemma disparity_accessors_never_return_witness :
  get_velo2disp
    (MkCalib "calib.txt"
       {[ "R0_rect" := Numeric [1; 0; 0; 0; 1; 0; 0; 0; 1]%Q;
          "Tr_velo_to_cam" := Numeric [0; -1; 0; 0; 0; 0; -1; 0; 1; 0; 0; 0]%Q ]}
       None)
  = Raise (AttributeError "color").
Proof.
  assert (H : Calib_init
    {[ "calib.txt" := "R0_rect: 1 0 0 0 1 0 0 0 1" +:+ nl +:+
                      "Tr_velo_to_cam: 0 -1 0 0 0 0 -1 0 1 0 0 0" +:+ nl ]}
    "calib.txt" false
  = Ok (MkCalib "calib.txt"
          {[ "R0_rect" := Numeric [1; 0; 0; 0; 1; 0; 0; 0; 1]%Q;
             "Tr_velo_to_cam" := Numeric [0; -1; 0; 0; 0; 0; -1; 0; 1; 0; 0; 0]%Q ]}
          None))
    by (vm_compute; reflexivity).
  exact (proj1 (proj1 (proj2 (disparity_accessors_never_return
                                (fun _ => Raise LinAlgError) _ _ _ _ (Mat 3 []) H))
                  ltac:(eexists; vm_compute; reflexivity))).
Defined.

(** [X19] [get_imu2velo] with nine numbers in [R0_rect]: three numbers
    in [Tr_imu_to_velo] give the transpose of the 4 x 4 array that has
    [R0_rect] in its upper left block and them in its last column, above a
    one; a vector of any length other than three or one, twelve included,
    raises [ValueError]. *)
Theorem get_imu2velo_layout (self : Calib) (r t : list Q) :
  data self !! "R0_rect" = Some (Numeric r) ->
  length r = 9%nat ->
  data self !! "Tr_imu_to_velo" = Some (Numeric t) ->
  (length t = 3%nat ->
   get_imu2velo self
   = Ok (Mat 4 [[nth 0 r 0; nth 3 r 0; nth 6 r 0; 0];
                [nth 1 r 0; nth 4 r 0; nth 7 r 0; 0];
                [nth 2 r 0; nth 5 r 0; nth 8 r 0; 0];
                [nth 0 t 0; nth 1 t 0; nth 2 t 0; 1]]%Q))
  /\ (length t <> 3%nat -> length t <> 1%nat ->
      get_imu2velo self = Raise ValueError).
Proof.
  intros Hr Lr Ht. unfold get_imu2velo.
  rewrite (field_present _ _ _ Hr). simpl.
  rewrite (reshape_ok 3 3 r Lr). simpl.
  rewrite (field_present _ _ _ Ht). simpl.
  destruct r as [|r0 [|r1 [|r2 [|r3 [|r4 [|r5 [|r6 [|r7 [|r8 [|? ?]]]]]]]]]];
    try discriminate Lr.
  split.
  - intros Lt. destruct t as [|t0 [|t1 [|t2 [|? ?]]]]; try discriminate Lt.
    reflexivity.
  - intros L3 L1. unfold Np.assign_col.
    replace (length t =? 3)%nat with false by (symmetry; by apply Nat.eqb_neq).
    by replace (length t =? 1)%nat with false by (symmetry; by apply Nat.eqb_neq).
Qed.

Lemma get_imu2velo_layout_witness :
  get_imu2velo sample_imu12 = Raise ValueError.
Proof.
  apply (proj2 (get_imu2velo_layout sample_imu12
                  [1; 0; 0; 0; 1; 0; 0; 0; 1]%Q
                  [1; 0; 0; 5; 0; 1; 0; 6; 0; 0; 1; 7]%Q
                  ltac:(vm_compute; reflexivity) ltac:(reflexivity)
                  ltac:(vm_compute; reflexivity))); discriminate.
Defined.

(** [X20] [get_velo2rect] returns exactly when [Tr_velo_to_cam] holds
    twelve numbers and [R0_rect] nine, and [get_velo2road] exactly when
    [Tr_velo_to_cam] and [Tr_cam_to_road] hold twelve each. *)
Theorem padded_accessors_ok (self : Calib) :
  (is_ok (get_velo2rect self)
   <-> exists a r,
         data self !! "Tr_velo_to_cam" = Some (Numeric a) /\ length a = 12%nat
         /\ data self !! "R0_rect" = Some (Numeric r) /\ length r = 9%nat)
  /\ (is_ok (get_velo2road self)
      <-> exists a c,
            data self !! "Tr_velo_to_cam" = Some (Numeric a) /\ length a = 12%nat
            /\ data self !! "Tr_cam_to_road" = Some (Numeric c)
            /\ length c = 12%nat).
Proof.
  split.
  - split.
    + intros [T H]. unfold get_velo2rect in H. bind_inv H.
      apply field_ok in Hx, Hx1.
      destruct (reshape_value_shape x 3 4 x0 Hx0) as (_ & a & -> & La).
      destruct (reshape_value_shape x1 3 3 x2 Hx2) as (_ & r & -> & Lr).
      by exists a, r.
    + intros (a & r & Ha & La & Hr & Lr). unfold get_velo2rect.
      rewrite (field_present _ _ _ Ha). cbn [mbind result_bind reshape_value].
      rewrite (reshape_ok 3 4 a La). cbn [mbind result_bind reshape_value].
      rewrite (field_present _ _ _ Hr). cbn [mbind result_bind reshape_value].
      rewrite (reshape_ok 3 3 r Lr). cbn [mbind result_bind reshape_value].
      destruct (dot_ok 4 4 4
                  (Np.assign_block 3 3 (Np.eye 4) (Mat 3 (Np.chunks 3 3 r)))
                  (Np.assign_block 4 3 (Np.eye 4)
                     (Np.transpose (Mat 4 (Np.chunks 3 4 a)))))
        as (p & Hp & _).
      * apply padded_block_shape.
        apply (reshape_shape 3 3 r), (reshape_ok 3 3 r Lr).
      * apply padded_transpose_shape.
        apply (reshape_shape 3 4 a), (reshape_ok 3 4 a La).
      * eexists. rewrite Hp. reflexivity.
  - split.
    + intros [T H]. unfold get_velo2road in H. bind_inv H.
      apply field_ok in Hx, Hx1.
      destruct (reshape_value_shape x 3 4 x0 Hx0) as (_ & a & -> & La).
      destruct (reshape_value_shape x1 3 4 x2 Hx2) as (_ & c & -> & Lc).
      by exists a, c.
    + intros (a & c & Ha & La & Hc & Lc). unfold get_velo2road.
      rewrite (field_present _ _ _ Ha). cbn [mbind result_bind reshape_value].
      rewrite (reshape_ok 3 4 a La). cbn [mbind result_bind reshape_value].
      rewrite (field_present _ _ _ Hc). cbn [mbind result_bind reshape_value].
      rewrite (reshape_ok 3 4 c Lc). cbn [mbind result_bind reshape_value].
      destruct (dot_ok 4 4 4
                  (Np.assign_block 4 3 (Np.eye 4)
                     (Np.transpose (Mat 4 (Np.chunks 3 4 c))))
                  (Np.assign_block 4 3 (Np.eye 4)
                     (Np.transpose (Mat 4 (Np.chunks 3 4 a)))))
        as (p & Hp & _).
      * apply padded_transpose_shape.
        apply (reshape_shape 3 4 c), (reshape_ok 3 4 c Lc).
      * apply padded_transpose_shape.
        apply (reshape_shape 3 4 a), (reshape_ok 3 4 a La).
      * eexists. rewrite Hp. reflexivity.
Qed.

Lemma padded_accessors_ok_witness : is_ok (get_velo2rect sample_calib).
Proof.
  apply (proj1 (padded_accessors_ok sample_calib)).
  exists [0; -1; 0; 0; 0; 0; -1; 0; 1; 0; 0; 0]%Q, [1; 0; 0; 0; 1; 0; 0; 0; 1]%Q.
  repeat split; reflexivity.
Defined.

(** * Frame indices *)

Section IndsProperties.

Variable splitext : string -> string * string.
Variable py_int : string -> option Z.
Variable ext : string.

Local Abbreviation has_ext := (fun name : string => snd (splitext name) = ext).
Local Abbreviation stem_is := (fun (name : string) (i : Z) =>
                             py_int (fst (splitext name)) = Some i).

Lemma collect_inds_ok (names : list string) : forall inds,
  collect_inds splitext py_int ext names = Ok inds ->
  Forall2 stem_is (filter has_ext names) inds.
Proof.
  induction names as [|name rest IH]; intros inds; simpl.
  - intros [= <-]. constructor.
  - rewrite filter_cons. destruct (String.eqb _ ext) eqn:E.
    + apply String.eqb_eq in E. rewrite decide_True by done.
      destruct (py_int _) as [i|] eqn:Ei; [|done].
      destruct (collect_inds _ _ _ rest) as [l|e]; simpl; [|done].
      intros [= <-]. constructor; [done|by apply IH].
    + apply String.eqb_neq in E. rewrite decide_False by done. apply IH.
Qed.

Lemma collect_inds_raise (names : list string) : forall e,
  collect_inds splitext py_int ext names = Raise e ->
  e = ValueError
  /\ exists name, name ∈ names /\ has_ext name
                  /\ py_int (fst (splitext name)) = None.
Proof.
  induction names as [|name rest IH]; intros e; simpl; [done|].
  destruct (String.eqb _ ext) eqn:E.
  - apply String.eqb_eq in E. destruct (py_int _) as [i|] eqn:Ei.
    + destruct (collect_inds _ _ _ rest) as [l|e'] eqn:Er; simpl; [done|].
      intros [= <-]. destruct (IH e' eq_refl) as (-> & n & Hin & Hn).
      split; [done|]. exists n. split; [by right|done].
    + intros [= <-]. split; [done|]. exists name. split; [by left|done].
  - intros H. destruct (IH e H) as (-> & n & Hin & Hn).
    split; [done|]. exists n. split; [by right|done].
Qed.

Lemma collect_inds_filter (names : list string) :
  collect_inds splitext py_int ext (filter has_ext names)
  = collect_inds splitext py_int ext names.
Proof.
  induction names as [|name rest IH]; [done|].
  rewrite filter_cons. simpl. destruct (String.eqb _ ext) eqn:E.
  - apply String.eqb_eq in E. rewrite decide_True by done. simpl.
    apply String.eqb_eq in E. rewrite E. by rewrite IH.
  - apply String.eqb_neq in E. by rewrite decide_False by done.
Qed.

End IndsProperties.

(** [X21] When [get_inds] returns, its list is in increasing order and
    holds, once each, the integers spelled by the stems of the names of
    the directory whose extension is [ext]: one number for each such name,
    none for the others. *)
Theorem get_inds_sorted
    (splitext : string -> string * string) (py_int : string -> option Z)
    (dirs : gmap string (list string)) (path ext : string) (inds : list Z) :
  get_inds splitext py_int dirs path ext = Ok inds ->
  exists names collected,
    dirs !! path = Some names
    /\ Forall2 (fun name i => py_int (fst (splitext name)) = Some i)
         (filter (fun name => snd (splitext name) = ext) names) collected
    /\ inds ≡ₚ collected
    /\ StronglySorted Z.le inds.
Proof.
  unfold get_inds. destruct (dirs !! path) as [names|]; [|done].
  destruct (collect_inds _ _ _ names) as [l|e] eqn:E; simpl; [|done].
  intros [= <-]. exists names, l. split; [done|].
  split; [by apply collect_inds_ok|].
  split; [apply merge_sort_Permutation|].
  apply StronglySorted_merge_sort; apply _.
Qed.

Lemma get_inds_sorted_witness :
  exists names collected,
    sample_dirs !! "drive" = Some names
    /\ Forall2 (fun name i => sample_int (fst (sample_splitext name)) = Some i)
         (filter (fun name => snd (sample_splitext name) = ".png") names) collected
    /\ [2; 10]%Z ≡ₚ collected
    /\ StronglySorted Z.le [2; 10]%Z.
Proof.
  apply (get_inds_sorted sample_splitext sample_int sample_dirs
           "drive" ".png" [2; 10]%Z).
  vm_compute. reflexivity.
Defined.

(** [X22] On a directory that can be listed, [get_inds] raises
    [ValueError] exactly when some name with the extension [ext] has a
    stem that [int] rejects, and returns exactly when there is none; names
    with another extension are never converted, so they change neither
    the result nor the error. *)
Theorem get_inds_failure
    (splitext : string -> string * string) (py_int : string -> option Z)
    (dirs : gmap string (list string)) (path ext : string)
    (names : list string) :
  dirs !! path = Some names ->
  (get_inds splitext py_int dirs path ext = Raise ValueError
   <-> exists name, name ∈ names /\ snd (splitext name) = ext
                    /\ py_int (fst (splitext name)) = None)
  /\ (is_ok (get_inds splitext py_int dirs path ext)
      <-> forall name, name ∈ names -> snd (splitext name) = ext ->
                       is_Some (py_int (fst (splitext name))))
  /\ get_inds splitext py_int
       (<[path := filter (fun name => snd (splitext name) = ext) names]> dirs)
       path ext
     = get_inds splitext py_int dirs path ext.
Proof.
  unfold get_inds.
  intros ->. rewrite lookup_insert_eq, collect_inds_filter.
  split; [|split; [|done]].
  - destruct (collect_inds _ _ _ names) as [l|e] eqn:E; simpl.
    + split; [done|]. intros (name & Hin & Hext & Hint).
      pose proof (collect_inds_ok _ _ _ _ _ E) as HF.
      assert (Hf : name ∈ filter (fun n => snd (splitext n) = ext) names)
        by (by apply list_elem_of_filter).
      apply list_elem_of_lookup in Hf as [k Hk].
      destruct (Forall2_lookup_l _ _ _ _ _ HF Hk) as (i & _ & Hi).
      congruence.
    + destruct (collect_inds_raise _ _ _ _ _ E) as (-> & Hex). by split.
  - destruct (collect_inds _ _ _ names) as [l|e] eqn:E; simpl.
    + split; [|by eexists]. intros _ name Hin Hext.
      pose proof (collect_inds_ok _ _ _ _ _ E) as HF.
      assert (Hf : name ∈ filter (fun n => snd (splitext n) = ext) names)
        by (by apply list_elem_of_filter).
      apply list_elem_of_lookup in Hf as [k Hk].
      destruct (Forall2_lookup_l _ _ _ _ _ HF Hk) as (i & _ & Hi). by exists i.
    + destruct (collect_inds_raise _ _ _ _ _ E) as (-> & name & Hin & Hext & Hint).
      split; [by intros [? ?]|]. intros H.
      destruct (H name Hin Hext) as [i Hi]. congruence.
Qed.

Lemma get_inds_failure_witness :
  get_inds sample_splitext sample_int sample_dirs "mixed" ".png"
  = Raise ValueError.
Proof.
  apply (proj1 (get_inds_failure sample_splitext sample_int sample_dirs
                  "mixed" ".png" ["0000000010.png"; "cover.png"; "notes.txt"]
                  ltac:(vm_compute; reflexivity))).
  exists "cover.png". split; [|split; reflexivity].
  apply list_elem_of_In. simpl. tauto.
Defined.

(** [X23] On an instance that has been given a [color] attribute,
    [get_rect2disp] reads [P0] and [P1] when it is false and [P2] and [P3]
    when it is true, and returns the 4 x 4 array whose row j holds entry j
    of the first row of the first matrix, of its second row, of the
    difference of the first rows of the two matrices, and of its third
    row; [get_disp2rect] is [np.linalg.inv] of that array. *)
Theorem rect2disp_pair_selection (linalg_inv : matrix -> result matrix)
    (self : Calib) (b : bool) (p q : list Q) :
  attr_color self = Some b ->
  data self !! proj_key (if b then 2 else 0) = Some (Numeric p) ->
  length p = 12%nat ->
  data self !! proj_key (if b then 3 else 1) = Some (Numeric q) ->
  length q = 12%nat ->
  get_rect2disp self
  = Ok (Mat 4 [[nth 0 p 0; nth 4 p 0; nth 0 p 0 - nth 0 q 0; nth 8 p 0];
               [nth 1 p 0; nth 5 p 0; nth 1 p 0 - nth 1 q 0; nth 9 p 0];
               [nth 2 p 0; nth 6 p 0; nth 2 p 0 - nth 2 q 0; nth 10 p 0];
               [nth 3 p 0; nth 7 p 0; nth 3 p 0 - nth 3 q 0; nth 11 p 0]]%Q)
  /\ get_disp2rect linalg_inv self
     = linalg_inv
         (Mat 4 [[nth 0 p 0; nth 4 p 0; nth 0 p 0 - nth 0 q 0; nth 8 p 0];
                 [nth 1 p 0; nth 5 p 0; nth 1 p 0 - nth 1 q 0; nth 9 p 0];
                 [nth 2 p 0; nth 6 p 0; nth 2 p 0 - nth 2 q 0; nth 10 p 0];
                 [nth 3 p 0; nth 7 p 0; nth 3 p 0 - nth 3 q 0; nth 11 p 0]]%Q).
Proof.
  intros Hc Hp Lp Hq Lq.
  pose proof (get_rect2disp_with_color self b p q Hc Hp Lp Hq Lq) as H.
  destruct p as [|p0 [|p1 [|p2 [|p3 [|p4 [|p5 [|p6 [|p7 [|p8 [|p9 [|p10 [|p11
             [|? ?]]]]]]]]]]]]]; try discriminate Lp.
  destruct q as [|q0 [|q1 [|q2 [|q3 [|q4 [|q5 [|q6 [|q7 [|q8 [|q9 [|q10 [|q11
             [|? ?]]]]]]]]]]]]]; try discriminate Lq.
  assert (H' : get_rect2disp self
    = Ok (Mat 4 [[p0; p4; p0 - q0; p8]; [p1; p5; p1 - q1; p9];
                 [p2; p6; p2 - q2; p10]; [p3; p7; p3 - q3; p11]]%Q))
    by exact H.
  split; [exact H'|]. unfold get_disp2rect. by rewrite H'.
Qed.

Lemma rect2disp_pair_selection_witness :
  get_rect2disp (MkCalib "calib.txt" sample_data (Some true))
  = Ok (Mat 4 [[7; 0; 7 - 7; 0]; [0; 7; 0 - 0; 0];
               [6; 2; 6 - 6; 1]; [5; 0; 5 - -3; 0]]%Q).
Proof.
  apply (rect2disp_pair_selection (fun _ => Raise LinAlgError)
           (MkCalib "calib.txt" sample_data (Some true)) true
           [7; 0; 6; 5; 0; 7; 2; 0; 0; 0; 1; 0]%Q
           [7; 0; 6; -3; 0; 7; 2; 0; 0; 0; 1; 0]%Q);
    first [reflexivity | vm_compute; reflexivity].
Defined.

Section Pointwise.

Variables (D : nat) (transform : matrix) (keep_last : bool).

(** The primitive works row by row, and whether it raises depends on the
    shapes alone. *)
Lemma homogeneous_transform_rowwise :
  (exists e, forall rows,
      homogeneous_transform (Mat D rows) transform keep_last = Raise e)
  \/ (exists (c : nat) (g : list Q -> list Q), forall rows,
        homogeneous_transform (Mat D rows) transform keep_last
        = Ok (Mat c (map g rows))).
Proof.
  assert (Hsame : forall D', D' = nrows transform ->
    (exists e, forall rows,
        homogeneous_transform (Mat D' rows) transform keep_last = Raise e)
    \/ (exists (c : nat) (g : list Q -> list Q), forall rows,
          homogeneous_transform (Mat D' rows) transform keep_last
          = Ok (Mat c (map g rows)))).
  { intros D' HD'. destruct (ncols transform =? 0)%nat eqn:E.
    - left. exists IndexError. intros rows.
      destruct (homogeneous_transform_same_dim (Mat D' rows) transform keep_last HD')
        as (prod & _ & _ & _ & _ & ->). by rewrite E.
    - right. eexists _, (fun r => normalize_row keep_last
                 (map (fun j => Np.vdot r (Np.col j transform))
                      (seq 0 (ncols transform)))).
      intros rows.
      destruct (homogeneous_transform_same_dim (Mat D' rows) transform keep_last HD')
        as (prod & Hdot & _ & _ & _ & ->).
      rewrite E. unfold Np.dot in Hdot. simpl in Hdot.
      rewrite HD', Nat.eqb_refl in Hdot. injection Hdot as <-.
      simpl. by rewrite map_map. }
  destruct (decide (D = nrows transform)) as [HD|HD]; [by apply Hsame|].
  destruct (decide ((D + 1)%nat = nrows transform)) as [HP|HP].
  - destruct (Hsame (D + 1)%nat HP) as [[e He]|(c & g & Hg)].
    + left. exists e. intros rows.
      rewrite (homogeneous_transform_promote (Mat D rows) transform keep_last HP).
      apply He.
    + right. exists c, (fun r => g (r ++ [1%Q])). intros rows.
      rewrite (homogeneous_transform_promote (Mat D rows) transform keep_last HP).
      unfold promote. simpl. by rewrite Hg, map_map.
  - left. exists ValueError. intros rows.
    by apply homogeneous_transform_mismatch.
Qed.

End Pointwise.

(** [X24] The primitive treats each point on its own: the transform of two
    sets of points stacked is the stack of their transforms, and whether
    the call raises depends only on the width of the points and on the
    transform, not on the points. *)
Theorem homogeneous_transform_pointwise
    (D : nat) (rows1 rows2 : list (list Q)) (transform : matrix)
    (keep_last : bool) :
  (forall R1 R2,
      homogeneous_transform (Mat D rows1) transform keep_last = Ok R1 ->
      homogeneous_transform (Mat D rows2) transform keep_last = Ok R2 ->
      ncols R1 = ncols R2
      /\ homogeneous_transform (Mat D (rows1 ++ rows2)) transform keep_last
         = Ok (Mat (ncols R1) (mrows R1 ++ mrows R2)))
  /\ (forall e,
      homogeneous_transform (Mat D rows1) transform keep_last = Raise e ->
      homogeneous_transform (Mat D rows2) transform keep_last = Raise e).
Proof.
  destruct (homogeneous_transform_rowwise D transform keep_last)
    as [[e He]|(c & g & Hg)].
  - split.
    + intros R1 R2 H1. by rewrite He in H1.
    + intros e' H. rewrite He in H. injection H as <-. apply He.
  - split.
    + intros R1 R2 H1 H2. rewrite Hg in H1, H2.
      injection H1 as <-. injection H2 as <-. simpl.
      split; [done|]. by rewrite Hg, map_app.
    + intros e H. by rewrite Hg in H.
Qed.

Lemma homogeneous_transform_pointwise_witness :
  homogeneous_transform (Mat 2 ([[2; 4]] ++ [[1; 1]])%Q)
    (Mat 2 [[1; 0]; [0; 2]]%Q) true
  = Ok (Mat 2 ([[2 # 8; 8]] ++ [[1 # 2; 2]])%Q).
Proof.
  apply (proj1 (homogeneous_transform_pointwise 2 [[2; 4]]%Q [[1; 1]]%Q
                  (Mat 2 [[1; 0]; [0; 2]]%Q) true)
           (Mat 2 [[2 # 8; 8]]%Q) (Mat 2 [[1 # 2; 2]]%Q));
    vm_compute; reflexivity.
Defined.

(** * The disparity transform and its inverse *)

Section RoundTrip.

Lemma homogeneous_transform_promoted_rows
    (points transform : matrix) (keep_last : bool) :
  (ncols points + 1)%nat = nrows transform ->
  (1 <= ncols transform)%nat ->
  homogeneous_transform points transform keep_last
  = Ok (Mat (if keep_last then ncols transform else (ncols transform - 1)%nat)
          (map (fun r => normalize_row keep_last (row_times (r ++ [1%Q]) transform))
               (mrows points))).
Proof.
  intros HD HN.
  rewrite (homogeneous_transform_promote points transform keep_last HD).
  destruct (homogeneous_transform_same_dim (promote points) transform keep_last)
    as (prod & Hdot & _ & _ & _ & ->); [exact HD|].
  replace (ncols transform =? 0)%nat with false
    by (symmetry; apply Nat.eqb_neq; lia).
  unfold Np.dot in Hdot. simpl ncols in Hdot.
  replace (ncols points + 1 =? nrows transform)%nat with true in Hdot
    by (symmetry; by apply Nat.eqb_eq).
  injection Hdot as <-. cbn [mrows promote ncols]. rewrite !map_map. reflexivity.
Qed.

Lemma shape44_entries (m : matrix) :
  has_shape 4 4 m ->
  exists a00 a01 a02 a03 a10 a11 a12 a13 a20 a21 a22 a23 a30 a31 a32 a33 : Q,
    m = Mat 4 [[a00; a01; a02; a03]; [a10; a11; a12; a13];
               [a20; a21; a22; a23]; [a30; a31; a32; a33]].
Proof.
  destruct m as [c rows]. unfold has_shape, nrows, wf. simpl.
  intros (Hr & -> & Hwf).
  destruct rows as [|r0 [|r1 [|r2 [|r3 [|? ?]]]]]; try discriminate Hr.
  apply Forall_cons_1 in Hwf as [H0 Hwf]. apply Forall_cons_1 in Hwf as [H1 Hwf].
  apply Forall_cons_1 in Hwf as [H2 Hwf]. apply Forall_cons_1 in Hwf as [H3 _].
  destruct r0 as [|? [|? [|? [|? [|? ?]]]]]; try discriminate H0.
  destruct r1 as [|? [|? [|? [|? [|? ?]]]]]; try discriminate H1.
  destruct r2 as [|? [|? [|? [|? [|? ?]]]]]; try discriminate H2.
  destruct r3 as [|? [|? [|? [|? [|? ?]]]]]; try discriminate H3.
  by repeat eexists.
Qed.

Variables t00 t01 t02 t03 t10 t11 t12 t13 t20 t21 t22 t23 t30 t31 t32 t33 : Q.
Variables s00 s01 s02 s03 s10 s11 s12 s13 s20 s21 s22 s23 s30 s31 s32 s33 : Q.

Local Abbreviation T :=
  (Mat 4 [[t00; t01; t02; t03]; [t10; t11; t12; t13];
          [t20; t21; t22; t23]; [t30; t31; t32; t33]]).
Local Abbreviation S :=
  (Mat 4 [[s00; s01; s02; s03]; [s10; s11; s12; s13];
          [s20; s21; s22; s23]; [s30; s31; s32; s33]]).

Hypothesis Hinv : mat_eq (Mat 4 (map (fun r => row_times r S) (mrows T))) (Np.eye 4).

Ltac combine_rows x y z E0 E1 E2 E3 :=
  match type of E0 with
  | (?L0 == _)%Q =>
      match type of E1 with
      | (?L1 == _)%Q =>
          match type of E2 with
          | (?L2 == _)%Q =>
              match type of E3 with
              | (?L3 == _)%Q =>
                  transitivity (x * L0 + y * L1 + z * L2 + L3)%Q;
                  [ring | rewrite E0, E1, E2, E3; ring]
              end
          end
      end
  end.

(** A point through [T], normalized, then through [S], normalized. *)
Lemma round_trip_row (x y z : Q) :
  ~ (weight (row_times ([x; y; z] ++ [1%Q]) T) == 0)%Q ->
  Forall2 Qeq
    (normalize_row false
       (row_times (normalize_row false (row_times ([x; y; z] ++ [1%Q]) T) ++ [1%Q]) S))
    [x; y; z].
Proof.
  destruct Hinv as [_ HE]. simpl in HE.
  apply Forall2_cons_1 in HE as [E0 HE]. apply Forall2_cons_1 in HE as [E1 HE].
  apply Forall2_cons_1 in HE as [E2 HE]. apply Forall2_cons_1 in HE as [E3 _].
  apply Forall2_cons_1 in E0 as [E00 E0]. apply Forall2_cons_1 in E0 as [E01 E0].
  apply Forall2_cons_1 in E0 as [E02 E0]. apply Forall2_cons_1 in E0 as [E03 _].
  apply Forall2_cons_1 in E1 as [E10 E1]. apply Forall2_cons_1 in E1 as [E11 E1].
  apply Forall2_cons_1 in E1 as [E12 E1]. apply Forall2_cons_1 in E1 as [E13 _].
  apply Forall2_cons_1 in E2 as [E20 E2]. apply Forall2_cons_1 in E2 as [E21 E2].
  apply Forall2_cons_1 in E2 as [E22 E2]. apply Forall2_cons_1 in E2 as [E23 _].
  apply Forall2_cons_1 in E3 as [E30 E3]. apply Forall2_cons_1 in E3 as [E31 E3].
  apply Forall2_cons_1 in E3 as [E32 E3]. apply Forall2_cons_1 in E3 as [E33 _].
  intros Hw. unfold row_times, normalize_row, weight, Np.vdot, Np.col in *.
  simpl in *.
  set (a0 := (x * t00 + (y * t10 + (z * t20 + (1 * t30 + 0))))%Q) in *.
  set (a1 := (x * t01 + (y * t11 + (z * t21 + (1 * t31 + 0))))%Q) in *.
  set (a2 := (x * t02 + (y * t12 + (z * t22 + (1 * t32 + 0))))%Q) in *.
  set (a3 := (x * t03 + (y * t13 + (z * t23 + (1 * t33 + 0))))%Q) in *.
  assert (F0 : (a0 * s00 + a1 * s10 + a2 * s20 + a3 * s30 == x)%Q)
    by (unfold a0, a1, a2, a3; combine_rows x y z E00 E10 E20 E30).
  assert (F1 : (a0 * s01 + a1 * s11 + a2 * s21 + a3 * s31 == y)%Q)
    by (unfold a0, a1, a2, a3; combine_rows x y z E01 E11 E21 E31).
  assert (F2 : (a0 * s02 + a1 * s12 + a2 * s22 + a3 * s32 == z)%Q)
    by (unfold a0, a1, a2, a3; combine_rows x y z E02 E12 E22 E32).
  assert (F3 : (a0 * s03 + a1 * s13 + a2 * s23 + a3 * s33 == 1)%Q)
    by (unfold a0, a1, a2, a3; combine_rows x y z E03 E13 E23 E33).
  clearbody a0 a1 a2 a3.
  assert (B0 : (a0 / a3 * s00 + (a1 / a3 * s10 + (a2 / a3 * s20 + (1 * s30 + 0)))
                == x / a3)%Q)
    by (transitivity ((a0 * s00 + a1 * s10 + a2 * s20 + a3 * s30) / a3)%Q;
        [field; exact Hw | rewrite F0; reflexivity]).
  assert (B1 : (a0 / a3 * s01 + (a1 / a3 * s11 + (a2 / a3 * s21 + (1 * s31 + 0)))
                == y / a3)%Q)
    by (transitivity ((a0 * s01 + a1 * s11 + a2 * s21 + a3 * s31) / a3)%Q;
        [field; exact Hw | rewrite F1; reflexivity]).
  assert (B2 : (a0 / a3 * s02 + (a1 / a3 * s12 + (a2 / a3 * s22 + (1 * s32 + 0)))
                == z / a3)%Q)
    by (transitivity ((a0 * s02 + a1 * s12 + a2 * s22 + a3 * s32) / a3)%Q;
        [field; exact Hw | rewrite F2; reflexivity]).
  assert (B3 : (a0 / a3 * s03 + (a1 / a3 * s13 + (a2 / a3 * s23 + (1 * s33 + 0)))
                == 1 / a3)%Q)
    by (transitivity ((a0 * s03 + a1 * s13 + a2 * s23 + a3 * s33) / a3)%Q;
        [field; exact Hw | rewrite F3; reflexivity]).
  rewrite B0, B1, B2, B3.
  repeat constructor; field; exact Hw.
Qed.

End RoundTrip.


